(** * sw-precache-webpack-plugin: the plugin adapter of [src/index.js]

    A shallow embedding of the [SWPrecacheWebpackPlugin] class: the three
    configuration layers ([config], [options], [overrides]) are JavaScript
    objects used as maps, the methods are state-passing functions on the
    instance, and the [after-emit] handler is run on a small job-queue
    machine that keeps the order of promise reactions and filesystem
    callbacks. *)

From Stdlib Require Import String Ascii List Bool Arith Lia.
From stdpp Require Import base option list strings gmap fin_maps.
Import ListNotations.
Local Open Scope string_scope.

(** ** JavaScript values that occur in the plugin's options *)

(** A regular expression is used through [regex.test(text)] only; it is
    represented by that predicate (patterns without the [g]/[y] flags, whose
    [test] keeps no state between calls). *)
Record RegExp := { test : string → bool }.

(** The values an option can hold.  The empty array is both [VStrs []] and
    [VRegs []]; every reader below treats the two alike. *)
Inductive value :=
| VUndef
| VNull
| VBool (b : bool)
| VStr (s : string)
| VStrs (l : list string)
| VRegs (l : list RegExp)
| VDict (m : gmap string string).

(** A thrown JavaScript exception, or a rejection reason. *)
Inductive exn :=
| TypeError (what : string)
| Error (msg : string).

(** [Unmodelled k]: option [k] holds a value outside the documented types on
    which JavaScript would go on with coerced, non-string data; the
    development says nothing about those runs. *)
Inductive failure :=
| Throw (e : exn)
| Unmodelled (key : string).

Inductive result (A : Type) :=
| Ok (a : A)
| Fail (f : failure).
Arguments Ok {A} a.
Arguments Fail {A} f.

Global Instance result_ret : MRet result := λ A a, Ok a.
Global Instance result_bind : MBind result := λ A B k r,
  match r with
  | Ok a => k a
  | Fail f => Fail f
  end.

(** ToBoolean. *)
Definition truthy (v : value) : bool :=
  match v with
  | VUndef | VNull => false
  | VBool b => b
  | VStr s => negb (String.eqb s "")
  | VStrs _ | VRegs _ | VDict _ => true
  end.

Module Obj.

(** [obj.k]: a missing property reads as [undefined]. *)
Definition get (o : gmap string value) (k : string) : value :=
  default VUndef (o !! k).

(** [{...a, ...b}]: the properties of [b] are written over those of [a]. *)
Definition spread2 (a b : gmap string value) : gmap string value := b ∪ a.

(** [{...l0, ...l1, ...}]. *)
Definition spread (layers : list (gmap string value)) : gmap string value :=
  foldl spread2 ∅ layers.

End Obj.

(** ** The Node.js functions and the collaborators the plugin calls *)

Class Node := {
  path_sep : string;
  path_join : string → string → string;
  path_resolve : string → string → string;
  url_resolve : string → string → string;
}.

(** The generator, the minifier and the host's output filesystem.  Both
    filesystem operations hand their result to a callback in a later turn of
    the event loop and return nothing that a promise could wait for, as
    those of [fs] and [memory-fs] do. *)
Class Collaborators := {
  (** [swPrecache.generate(config)]: the promise fulfils with the source of
      the service worker or rejects. *)
  swPrecache_generate : gmap string value → exn + string;
  (** [UglifyJS.minify({[key]: source}, {fromString: true}).code], or the
      exception it raises. *)
  UglifyJS_minify : string → string → exn + string;
  (** [outputFileSystem.mkdirp(dir, cb)]: the error handed to [cb]. *)
  fs_mkdirp : string → option exn;
  (** [outputFileSystem.writeFile(path, content, cb)]: the error handed
      to [cb]. *)
  fs_writeFile : string → string → option exn;
}.

(** ** Constants *)

Definition FILEPATH_WARNING : string :=
  "sw-prechache-webpack-plugin [filepath]: You are using a custom path for your service worker, this may prevent the service worker from working correctly if it is not available in the same path as your application.".
Definition FORCEDELETE_WARNING : string :=
  "sw-prechache-webpack-plugin [forceDelete]: You are specifying the option forceDelete. This was removed in v0.10. It should not affect your build but should no longer be required.".

Definition DEFAULT_CACHE_ID : string := "sw-precache-webpack-plugin".
Definition DEFAULT_WORKER_FILENAME : string := "service-worker.js".
Definition DEFAULT_PUBLIC_PATH : string := "".
Definition DEFAULT_IMPORT_SCRIPTS : list string := [].
Definition DEFAULT_IGNORE_PATTERNS : list RegExp := [].

Definition DEFAULT_OPTIONS : gmap string value :=
  <["cacheId" := VStr DEFAULT_CACHE_ID]>
  (<["filename" := VStr DEFAULT_WORKER_FILENAME]>
  (<["importScripts" := VStrs DEFAULT_IMPORT_SCRIPTS]>
  (<["staticFileGlobsIgnorePatterns" := VRegs DEFAULT_IGNORE_PATTERNS]>
  (<["mergeStaticsConfig" := VBool false]>
  (<["minify" := VBool false]> ∅))))).

(** ** The plugin instance and the host's build state *)

Record Plugin := {
  config : gmap string value;
  options : gmap string value;
  overrides : gmap string value;
  warnings : list string;
}.

(** [compiler.outputPath] and [compiler.options.output.publicPath]. *)
Record Compiler := {
  outputPath : string;
  publicPath : option string;
}.

(** [Object.keys(compilation.assets)], [compilation.hash] and
    [compilation.warnings]. *)
Record Compilation := {
  assets : list string;
  hash : string;
  comp_warnings : list string;
}.

Definition constructor (user_options : gmap string value) : Plugin :=
  {| config := ∅;
     options := Obj.spread [DEFAULT_OPTIONS; user_options];
     overrides := ∅;
     warnings := [] |}.

(** [get workerOptions()]. *)
Definition workerOptions (p : Plugin) : gmap string value :=
  Obj.spread [config p; options p; overrides p].

(** ** [String.prototype.replace] with the pattern [/\[hash\]/g] *)

Module Replace.

Definition token : string := "[hash]".

(** [strip_prefix p s]: what follows [p] at the start of [s]. *)
Fixpoint strip_prefix (p s : string) : option string :=
  match p, s with
  | EmptyString, _ => Some s
  | String a p', String b s' =>
      if Ascii.eqb a b then strip_prefix p' s' else None
  | String _ _, EmptyString => None
  end.

(** GetSubstitution for a pattern without capture groups: in the
    replacement text [$$] stands for a dollar sign, [$&] for the match,
    [$`] and [$'] for the text before and after the match; any other
    [$] is kept as it is. *)
Fixpoint get_substitution (matched before after r : string) : string :=
  match r with
  | EmptyString => EmptyString
  | String c r' =>
      if Ascii.eqb c "$" then
        match r' with
        | EmptyString => String c EmptyString
        | String d r'' =>
            if Ascii.eqb d "$" then String "$" (get_substitution matched before after r'')
            else if Ascii.eqb d "&" then matched +:+ get_substitution matched before after r''
            else if Ascii.eqb d "`" then before +:+ get_substitution matched before after r''
            else if Ascii.eqb d "'" then after +:+ get_substitution matched before after r''
            else String c (get_substitution matched before after r')
        end
      else String c (get_substitution matched before after r')
  end.

(** The scan of a global replace: [before] is the part of the subject
    already passed, [skip] counts the characters of a match that the scan
    still has to step over. *)
Fixpoint replace_from (repl : string) (skip : nat) (before s : string) : string :=
  match s with
  | EmptyString => EmptyString
  | String c s' =>
      match skip with
      | S k => replace_from repl k (before +:+ String c EmptyString) s'
      | O =>
          match strip_prefix token s with
          | Some after =>
              get_substitution token before after repl
              +:+ replace_from repl (String.length token - 1)
                    (before +:+ String c EmptyString) s'
          | None =>
              String c (replace_from repl 0 (before +:+ String c EmptyString) s')
          end
      end
  end.

(** [f.replace(/\[hash\]/g, hash)]. *)
Definition replace_hash (f hash : string) : string :=
  replace_from hash 0 EmptyString f.

(** [contains p s]: [p] occurs in [s]. *)
Fixpoint contains (p s : string) : bool :=
  match strip_prefix p s with
  | Some _ => true
  | None =>
      match s with
      | EmptyString => false
      | String _ s' => contains p s'
      end
  end.


End Replace.

(** ** Readers of option values *)

(** [assetGlobs.concat(this.options.staticFileGlobs || [])]: the elements
    that [concat] appends. *)
Definition concat_arg (v : value) : result (list string) :=
  if truthy v then
    match v with
    | VStrs l => Ok l
    | VRegs [] => Ok []
    | VStr s => Ok [s]
    | _ => Fail (Unmodelled "staticFileGlobs")
    end
  else Ok [].

(** [patterns.some((regex) => regex.test(text))]. *)
Definition some_test (patterns : value) (text : string) : result bool :=
  match patterns with
  | VRegs l => Ok (existsb (λ regex, test regex text) l)
  | VStrs [] => Ok false
  | _ => Fail (Throw (TypeError "staticFileGlobsIgnorePatterns"))
  end.

(** [l.filter(keep)] for a callback that may throw. *)
Fixpoint filterM {A} (keep : A → result bool) (l : list A) : result (list A) :=
  match l with
  | [] => Ok []
  | x :: l' =>
      b ← keep x;
      r ← filterM keep l';
      Ok (if b : bool then x :: r else r)
  end.

(** [{...this.options.stripPrefixMulti}]. *)
Definition spread_dict (v : value) : result (gmap string string) :=
  match v with
  | VUndef | VNull | VBool _ => Ok ∅
  | VDict m => Ok m
  | VStr EmptyString | VStrs [] | VRegs [] => Ok ∅
  | VStr _ | VStrs _ | VRegs _ => Fail (Unmodelled "stripPrefixMulti")
  end.

(** [importScripts.map(f => ...)] on a truthy [importScripts]. *)
Definition map_scripts (v : value) (f : string → string) : result (list string) :=
  match v with
  | VStrs l => Ok (map f l)
  | VRegs [] => Ok []
  | _ => Fail (Throw (TypeError "importScripts"))
  end.

(** A path argument of [path.resolve]: anything but a string throws. *)
Definition path_arg (v : value) : result string :=
  match v with
  | VStr s => Ok s
  | _ => Fail (Throw (TypeError "path"))
  end.

(** The property key [uglifyFiles[key]] that a value is turned into. *)
Definition property_key (v : value) : result string :=
  match v with
  | VStr s => Ok s
  | VUndef => Ok "undefined"
  | VNull => Ok "null"
  | VBool true => Ok "true"
  | VBool false => Ok "false"
  | VStrs l => Ok (String.concat "," l)
  | VRegs [] => Ok ""
  | VRegs _ => Fail (Unmodelled "filename")
  | VDict _ => Ok "[object Object]"
  end.

(** ** The methods of the class *)

Section Methods.
Context `{!Node}.

(** [const {filepath = path.resolve(outputPath, this.options.filename)}
    = this.options]: the default is used, and evaluated, only when the
    property reads as [undefined]. *)
Definition resolve_filepath (compiler : Compiler) (p : Plugin) : result value :=
  match Obj.get (options p) "filepath" with
  | VUndef =>
      filename ← path_arg (Obj.get (options p) "filename");
      Ok (VStr (path_resolve (outputPath compiler) filename))
  | v => Ok v
  end.

(** [assetGlobs.concat(...).filter(text => !patterns.some(regex =>
    regex.test(text)))]. *)
Definition filter_globs (patterns : value) (globs : list string)
    : result (list string) :=
  filterM (λ text, b ← some_test patterns text; Ok (negb b)) globs.

(** [stripPrefixMulti] once the entry for the output directory is set. *)
Definition strip_output_path (compiler : Compiler)
    (user_prefixes : gmap string string) : gmap string string :=
  if truthy (VStr (outputPath compiler))
  then <[outputPath compiler +:+ path_sep :=
           default DEFAULT_PUBLIC_PATH (publicPath compiler)]> user_prefixes
  else user_prefixes.

(** The object literal [{staticFileGlobs, stripPrefixMulti}]. *)
Definition statics (staticFileGlobs : list string)
    (stripPrefixMulti : gmap string string) : gmap string value :=
  <["staticFileGlobs" := VStrs staticFileGlobs]>
    (<["stripPrefixMulti" := VDict stripPrefixMulti]> ∅).

(** [importScripts.map(f => f.replace(/\[hash\]/g, compilation.hash))
    .map(f => url.resolve(publicPath, f))], stored in the overrides when
    [importScripts] is truthy. *)
Definition resolve_importScripts (compiler : Compiler)
    (compilation : Compilation) (importScripts : value)
    (overrides1 : gmap string value) : result (gmap string value) :=
  if truthy importScripts then
    replaced ←
      map_scripts importScripts
        (λ f, Replace.replace_hash f (hash compilation));
    let resolved :=
      map (λ f, url_resolve (default DEFAULT_PUBLIC_PATH (publicPath compiler)) f)
          replaced in
    Ok (<["importScripts" := VStrs resolved]> overrides1)
  else Ok overrides1.

(** [configure(compiler, compilation)].  A failure is an exception that
    leaves the [after-emit] handler uncaught. *)
Definition configure (compiler : Compiler) (compilation : Compilation)
    (p : Plugin) : result Plugin :=
  let importScripts := Obj.get (options p) "importScripts" in
  let staticFileGlobsIgnorePatterns :=
    Obj.get (options p) "staticFileGlobsIgnorePatterns" in
  let mergeStaticsConfig := Obj.get (options p) "mergeStaticsConfig" in
  filepath ← resolve_filepath compiler p;
  let assetGlobs :=
    map (λ f, path_join (outputPath compiler) f) (assets compilation) in
  extra ← concat_arg (Obj.get (options p) "staticFileGlobs");
  staticFileGlobs ←
    filter_globs staticFileGlobsIgnorePatterns ((assetGlobs ++ extra)%list);
  user_prefixes ← spread_dict (Obj.get (options p) "stripPrefixMulti");
  let stripPrefixMulti := strip_output_path compiler user_prefixes in
  let config1 :=
    Obj.spread [config p; statics staticFileGlobs stripPrefixMulti] in
  let overrides1 := <["filepath" := filepath]> (overrides p) in
  overrides2 ←
    resolve_importScripts compiler compilation importScripts overrides1;
  let overrides3 :=
    if truthy mergeStaticsConfig
    then Obj.spread [overrides2; statics staticFileGlobs stripPrefixMulti]
    else overrides2 in
  Ok {| config := config1;
        options := options p;
        overrides := overrides3;
        warnings := warnings p |}.

(** The instance when [configure] has thrown.  An exception of
    [path.resolve] or of the filter comes before the first assignment; one of
    [importScripts.map] comes after [this.config] and
    [this.overrides.filepath] have been assigned. *)
Definition interrupted (compiler : Compiler) (compilation : Compilation)
    (p : Plugin) : Plugin :=
  let assigned : result (value * list string * gmap string string) :=
    filepath ← resolve_filepath compiler p;
    extra ← concat_arg (Obj.get (options p) "staticFileGlobs");
    staticFileGlobs ←
      filter_globs (Obj.get (options p) "staticFileGlobsIgnorePatterns")
        ((map (λ f, path_join (outputPath compiler) f) (assets compilation)
          ++ extra)%list);
    user_prefixes ← spread_dict (Obj.get (options p) "stripPrefixMulti");
    Ok (filepath, staticFileGlobs, user_prefixes) in
  match assigned with
  | Ok (filepath, staticFileGlobs, user_prefixes) =>
      {| config :=
           Obj.spread [config p;
                       statics staticFileGlobs
                         (strip_output_path compiler user_prefixes)];
         options := options p;
         overrides := <["filepath" := filepath]> (overrides p);
         warnings := warnings p |}
  | Fail _ => p
  end.

(** [checkWarnings(compilation)]: the instance and the host's compilation
    after the call. *)
Definition checkWarnings (compilation : Compilation) (p : Plugin)
    : Plugin * Compilation :=
  let w1 :=
    if truthy (Obj.get (options p) "filepath")
    then (warnings p ++ [FILEPATH_WARNING])%list else warnings p in
  let w2 :=
    if truthy (Obj.get (options p) "forceDelete")
    then (w1 ++ [FORCEDELETE_WARNING])%list else w1 in
  let p' := {| config := config p; options := options p;
               overrides := overrides p; warnings := w2 |} in
  if truthy (Obj.get (workerOptions p') "debug")
  then (p', {| assets := assets compilation; hash := hash compilation;
               comp_warnings := (comp_warnings compilation ++ w2)%list |})
  else (p', compilation).

End Methods.

(** ** The [after-emit] handler on a job queue *)

(** What the host and the collaborators can observe, in order. *)
Inductive event :=
| EConfigure
| EGenerate (cfg : gmap string value)
| ECheckWarnings
| EMinify (key source : string)
| EMkdirp (dir : string)
| EMkdirpDone (err : option exn)
| EWriteFile (path content : string)
| EWriteFileDone (err : option exn)
| ECallback (err : option exn).

(** The pending work of one build.  The promise chain of [apply] is
    [generate(..).then(minify).then(write).then(undefined).then(done, error)];
    each [Then..] job is the reaction of one link to the settlement [r] of
    the promise before it.  The other jobs are the collaborators finishing. *)
Inductive job :=
| GeneratorSettles (cfg : gmap string value)
| ThenMinify (r : exn + string)
| ThenWrite (r : exn + string)
| ThenUndefined (r : exn + unit)
| ThenDone (r : exn + unit)
| MkdirpCalls (filepath serviceWorker : string)
| WriteFileCalls (filepath serviceWorker : string).

Record Machine := {
  plugin : Plugin;
  compilation : Compilation;
  trace : list event;
  (** promise reactions: run before anything else *)
  microtasks : list job;
  (** completions of the generator and of the filesystem *)
  macrotasks : list job;
  (** an exception that nothing caught, or a run outside the model *)
  halted : option failure;
}.

Section Handler.
Context `{!Node, !Collaborators}.

(** The callback of [createServiceWorker]'s [then]: the calls it makes
    and what it returns or throws. *)
Definition minify_step (p : Plugin) (serviceWorkerFileContents : string)
    : list event * result string :=
  if truthy (Obj.get (options p) "minify") then
    match property_key (Obj.get (options p) "filename") with
    | Ok key =>
        ([EMinify key serviceWorkerFileContents],
         match UglifyJS_minify key serviceWorkerFileContents with
         | inr code => Ok code
         | inl e => Fail (Throw e)
         end)
    | Fail f => ([], Fail f)
    end
  else ([], Ok serviceWorkerFileContents).

Definition emit (m : Machine) (evs : list event) (micro macro : list job)
    : Machine :=
  {| plugin := plugin m; compilation := compilation m;
     trace := (trace m ++ evs)%list;
     microtasks := (microtasks m ++ micro)%list;
     macrotasks := (macrotasks m ++ macro)%list;
     halted := halted m |}.

Definition halt (m : Machine) (f : failure) : Machine :=
  {| plugin := plugin m; compilation := compilation m; trace := trace m;
     microtasks := []; macrotasks := []; halted := Some f |}.

(** Running one job. *)
Definition perform (j : job) (m : Machine) : Machine :=
  match j with
  | GeneratorSettles cfg =>
      emit m [] [ThenMinify (swPrecache_generate cfg)] []
  | ThenMinify (inr contents) =>
      let '(evs, r) := minify_step (plugin m) contents in
      match r with
      | Ok code => emit m evs [ThenWrite (inr code)] []
      | Fail (Throw e) => emit m evs [ThenWrite (inl e)] []
      | Fail f => halt (emit m evs [] []) f
      end
  | ThenMinify (inl e) => emit m [] [ThenWrite (inl e)] []
  | ThenWrite (inr serviceWorker) =>
      (* writeServiceWorker(serviceWorker, compiler, callback) *)
      match path_arg (Obj.get (workerOptions (plugin m)) "filepath") with
      | Ok filepath =>
          emit m [EMkdirp (path_resolve filepath "..")]
               [ThenUndefined (inr tt)]
               [MkdirpCalls filepath serviceWorker]
      | Fail (Throw e) => emit m [] [ThenUndefined (inl e)] []
      | Fail f => halt m f
      end
  | ThenWrite (inl e) => emit m [] [ThenUndefined (inl e)] []
  | ThenUndefined r => emit m [] [ThenDone r] []
  | ThenDone (inr _) => emit m [ECallback None] [] []
  | ThenDone (inl e) => emit m [ECallback (Some e)] [] []
  | MkdirpCalls filepath serviceWorker =>
      (* () => writeFile(filepath, serviceWorker, callback) *)
      emit m [EMkdirpDone (fs_mkdirp (path_resolve filepath ".."));
              EWriteFile filepath serviceWorker]
           [] [WriteFileCalls filepath serviceWorker]
  | WriteFileCalls filepath serviceWorker =>
      let err := fs_writeFile filepath serviceWorker in
      emit m [EWriteFileDone err; ECallback err] [] []
  end.

(** One turn: the oldest promise reaction if there is one, else the oldest
    completion. *)
Definition step (m : Machine) : option Machine :=
  match microtasks m, macrotasks m with
  | j :: rest, _ =>
      Some (perform j {| plugin := plugin m; compilation := compilation m;
                         trace := trace m; microtasks := rest;
                         macrotasks := macrotasks m; halted := halted m |})
  | [], j :: rest =>
      Some (perform j {| plugin := plugin m; compilation := compilation m;
                         trace := trace m; microtasks := [];
                         macrotasks := rest; halted := halted m |})
  | [], [] => None
  end.

Fixpoint run (fuel : nat) (m : Machine) : Machine :=
  match fuel with
  | O => m
  | S fuel' =>
      match step m with
      | Some m' => run fuel' m'
      | None => m
      end
  end.

(** The synchronous part of the handler registered by [apply]. *)
Definition after_emit (compiler : Compiler) (comp : Compilation)
    (p : Plugin) : Machine :=
  match configure compiler comp p with
  | Fail f =>
      (* the exception leaves the handler: nothing is queued *)
      {| plugin := interrupted compiler comp p; compilation := comp;
         trace := [EConfigure];
         microtasks := []; macrotasks := []; halted := Some f |}
  | Ok p1 =>
      (* this.createServiceWorker() calls the generator at once *)
      let cfg := workerOptions p1 in
      (* the argument this.checkWarnings(compilation) is evaluated while
         the chain is being built *)
      let '(p2, comp2) := checkWarnings comp p1 in
      {| plugin := p2; compilation := comp2;
         trace := [EConfigure; EGenerate cfg; ECheckWarnings];
         microtasks := []; macrotasks := [GeneratorSettles cfg];
         halted := None |}
  end.

(** A whole build: the handler, then the queue until it is empty. *)
Definition build (compiler : Compiler) (comp : Compilation) (p : Plugin)
    : Machine :=
  run 7 (after_emit compiler comp p).

End Handler.

(** ** A sample host: POSIX paths and collaborators that succeed *)

Module Sample.

(** The directory part of a path: the text before its last [/]. *)
Fixpoint dirname (s : string) : string :=
  match s with
  | EmptyString => EmptyString
  | String c s' =>
      if Replace.contains "/" s' then String c (dirname s') else EmptyString
  end.

(** Enough of [path] and [url] for the sample hosts: a normalised,
    non-empty output path and a public path that ends in a slash.  On other
    inputs Node normalises, or resolves against the working directory or the
    last segment of the base; no sample states a path or a URL there. *)
Definition posix : Node :=
  {| path_sep := "/";
     path_join := λ a b, a +:+ "/" +:+ b;
     path_resolve := λ a b,
       if String.eqb b ".." then dirname a else a +:+ "/" +:+ b;
     url_resolve := λ base f, base +:+ f |}.

(** A generator that returns a fixed source, a minifier that marks its
    input, and a filesystem whose operations succeed. *)
Definition healthy : Collaborators :=
  {| swPrecache_generate := λ _, inr "self.addEventListener('install', f);";
     UglifyJS_minify := λ _ src, inr ("min:" +:+ src);
     fs_mkdirp := λ _, None;
     fs_writeFile := λ _ _, None |}.

(** The same host on a disk where nothing can be created. *)
Definition read_only_disk : Collaborators :=
  {| swPrecache_generate := λ _, inr "self.addEventListener('install', f);";
     UglifyJS_minify := λ _ src, inr ("min:" +:+ src);
     fs_mkdirp := λ _, Some (Error "EROFS");
     fs_writeFile := λ _ _, Some (Error "EROFS") |}.

Definition compiler : Compiler :=
  {| outputPath := "/dist"; publicPath := Some "/assets/" |}.

Definition compilation : Compilation :=
  {| assets := ["a.js"; "b.css"]; hash := "0123abcd"; comp_warnings := [] |}.

(** [{stripPrefixMulti: {'/dist/': '/other/'}, staticFileGlobs:
    ['/static/x.png']}]: the user's map has an entry for the output
    directory itself. *)
Definition conflicting : gmap string value :=
  <["stripPrefixMulti" := VDict (<["/dist/" := "/other/"]> ∅)]>
    (<["staticFileGlobs" := VStrs ["/static/x.png"]]> ∅).

(** The pattern [/\.css/]. *)
Definition css : RegExp := {| test := λ text, Replace.contains ".css" text |}.

(** [{staticFileGlobsIgnorePatterns: [/\.css/], staticFileGlobs:
    ['/static/x.png'], minify: true}]. *)
Definition ignoring : gmap string value :=
  <["staticFileGlobsIgnorePatterns" := VRegs [css]]>
    (<["staticFileGlobs" := VStrs ["/static/x.png"]]>
    (<["minify" := VBool true]> ∅)).

(** [{filepath: '/srv/sw.js', forceDelete: true, debug: true}]. *)
Definition legacy : gmap string value :=
  <["filepath" := VStr "/srv/sw.js"]>
    (<["forceDelete" := VBool true]>
    (<["debug" := VBool true]> ∅)).

(** The same with [mergeStaticsConfig: true] and an import script. *)
Definition merging : gmap string value :=
  <["mergeStaticsConfig" := VBool true]>
    (<["importScripts" := VStrs ["sw-[hash].js"]]> conflicting).

End Sample.

(** ** Further hosts and options *)

Module Scenario.

(** A generator whose promise rejects. *)
Definition rejecting : Collaborators :=
  {| swPrecache_generate := λ _, inl (Error "no such directory");
     UglifyJS_minify := λ _ src, inr ("min:" +:+ src);
     fs_mkdirp := λ _, None;
     fs_writeFile := λ _ _, None |}.

(** A minifier whose output shows the key it was called with. *)
Definition keyed : Collaborators :=
  {| swPrecache_generate := λ _, inr "self.addEventListener('install', f);";
     UglifyJS_minify := λ key src, inr (key +:+ ":" +:+ src);
     fs_mkdirp := λ _, None;
     fs_writeFile := λ _ _, None |}.

(** [{minify: true, filename: 'sw.js'}]. *)
Definition minified : gmap string value :=
  <["minify" := VBool true]> (<["filename" := VStr "sw.js"]> ∅).


(** A compiler with an empty output path and no public path. *)
Definition bare : Compiler := {| outputPath := ""; publicPath := None |}.

(** [{cacheId: 'my-app', runtimeCaching: undefined, stripPrefixMulti:
    {'/srv/': '/'}}]. *)
Definition custom : gmap string value :=
  <["cacheId" := VStr "my-app"]>
    (<["runtimeCaching" := VUndef]>
    (<["stripPrefixMulti" := VDict (<["/srv/" := "/"]> ∅)]> ∅)).

(** [{filepath: null}]. *)
Definition null_filepath : gmap string value := <["filepath" := VNull]> ∅.

(** [{filename: undefined}]. *)
Definition undefined_filename : gmap string value := <["filename" := VUndef]> ∅.

(** [{staticFileGlobsIgnorePatterns: undefined}]. *)
Definition undefined_patterns : gmap string value :=
  <["staticFileGlobsIgnorePatterns" := VUndef]> ∅.

(** [{importScripts: 'sw-extra.js'}]: a string where an array is expected. *)
Definition string_scripts : gmap string value :=
  <["importScripts" := VStr "sw-extra.js"]> ∅.

(** [{importScripts: null}]. *)
Definition no_scripts : gmap string value := <["importScripts" := VNull]> ∅.

(** [{importScripts: ['a.js', 'b-[hash].js']}]. *)
Definition two_scripts : gmap string value :=
  <["importScripts" := VStrs ["a.js"; "b-[hash].js"]]> ∅.

End Scenario.

(** ** What one call of [checkWarnings] pushes *)

(** The warnings that one call pushes for the options [o]: one for a truthy
    [filepath], then one for a truthy [forceDelete]. *)
Definition raised_warnings (o : gmap string value) : list string :=
  ((if truthy (Obj.get o "filepath") then [FILEPATH_WARNING] else []) ++
   (if truthy (Obj.get o "forceDelete") then [FORCEDELETE_WARNING] else []))%list.

(** ** Readings of a trace *)

(** The files written: path and content of each [writeFile] call. *)
Definition writes (tr : list event) : list (string * string) :=
  flat_map (λ e, match e with EWriteFile path content => [(path, content)] | _ => [] end) tr.

(** The arguments of the host's completion callback, call by call. *)
Definition callbacks (tr : list event) : list (option exn) :=
  flat_map (λ e, match e with ECallback err => [err] | _ => [] end) tr.

(** What the queue adds to the trace once the generator has settled with
    [outcome], written out case by case ([build_Ok] shows that [build]
    produces exactly this): it depends on the generator, the minifier and
    the output path only. *)
Definition after_generate `{!Node, !Collaborators} (p : Plugin)
    (outcome : exn + string) : list event :=
  match outcome with
  | inl e => [ECallback (Some e)]
  | inr contents =>
      let '(evs, r) := minify_step p contents in
      (evs ++
       match r with
       | Ok code =>
           match path_arg (Obj.get (workerOptions p) "filepath") with
           | Ok filepath =>
               [EMkdirp (path_resolve filepath "..");
                ECallback None;
                EMkdirpDone (fs_mkdirp (path_resolve filepath ".."));
                EWriteFile filepath code;
                EWriteFileDone (fs_writeFile filepath code);
                ECallback (fs_writeFile filepath code)]
           | Fail (Throw e) => [ECallback (Some e)]
           | Fail (Unmodelled _) => []
           end
       | Fail (Throw e) => [ECallback (Some e)]
       | Fail (Unmodelled _) => []
       end)%list
  end.

(** ** [configure] taken apart *)

(** The assignments of a [configure] call that returns: the local constants
    of the method and the three fields it leaves in the instance. *)
Inductive configured `{!Node} (c : Compiler) (comp : Compilation)
    (p p' : Plugin) : Prop :=
| Configured (filepath : value) (extra staticFileGlobs : list string)
    (user_prefixes : gmap string string) (overrides2 : gmap string value) :
    resolve_filepath c p = Ok filepath →
    concat_arg (Obj.get (options p) "staticFileGlobs") = Ok extra →
    filter_globs (Obj.get (options p) "staticFileGlobsIgnorePatterns")
      (map (λ f, path_join (outputPath c) f) (assets comp) ++ extra)%list
    = Ok staticFileGlobs →
    spread_dict (Obj.get (options p) "stripPrefixMulti") = Ok user_prefixes →
    resolve_importScripts c comp (Obj.get (options p) "importScripts")
      (<["filepath" := filepath]> (overrides p)) = Ok overrides2 →
    config p' =
      Obj.spread [config p;
                  statics staticFileGlobs (strip_output_path c user_prefixes)] →
    options p' = options p →
    overrides p' =
      (if truthy (Obj.get (options p) "mergeStaticsConfig")
       then Obj.spread [overrides2;
                        statics staticFileGlobs (strip_output_path c user_prefixes)]
       else overrides2) →
    warnings p' = warnings p →
    configured c comp p p'.

(** ** Instances in use *)

(** The states an instance built from [user_options] goes through: fresh
    from the constructor, then one [after-emit] event after the other.  An
    exception out of the handler ends the host's process, so only builds
    whose [configure] returns are followed by another. *)
Inductive reachable `{!Node, !Collaborators} (user_options : gmap string value)
    : Plugin → Prop :=
| reach_constructor : reachable user_options (constructor user_options)
| reach_build c comp p p1 :
    reachable user_options p →
    configure c comp p = Ok p1 →
    reachable user_options (plugin (build c comp p)).

(** The prefix-stripping map of the configuration [cfg] maps the output
    directory followed by the separator to the public path. *)
Definition strips_output_path `{!Node} (c : Compiler)
    (cfg : gmap string value) : Prop :=
  ∃ m : gmap string string,
    cfg !! "stripPrefixMulti" = Some (VDict m)
    ∧ m !! (outputPath c +:+ path_sep)
      = Some (default DEFAULT_PUBLIC_PATH (publicPath c)).

(** [ignored patterns text]: [text] matches at least one of the ignore
    patterns. *)
Definition ignored (patterns : value) (text : string) : bool :=
  match patterns with
  | VRegs l => existsb (λ regex, test regex text) l
  | _ => false
  end.



(** Options of the documented types: a string [filename] unless a
    [filepath] is given, an array of regular expressions as ignore patterns,
    arrays of strings as [staticFileGlobs] and [importScripts], an object of
    strings as [stripPrefixMulti]. *)
Definition typed_options (o : gmap string value) : Prop :=
  (Obj.get o "filepath" ≠ VUndef ∨ ∃ s, Obj.get o "filename" = VStr s)
  ∧ (∃ regs, Obj.get o "staticFileGlobsIgnorePatterns" = VRegs regs)
  ∧ (Obj.get o "staticFileGlobs" = VUndef
     ∨ ∃ l, Obj.get o "staticFileGlobs" = VStrs l)
  ∧ (Obj.get o "stripPrefixMulti" = VUndef
     ∨ ∃ m, Obj.get o "stripPrefixMulti" = VDict m)
  ∧ (truthy (Obj.get o "importScripts") = false
     ∨ ∃ l, Obj.get o "importScripts" = VStrs l).

(** ** Layering *)

Section Layers.
Implicit Types (p : Plugin) (k : string) (v : value).

Lemma lookup_workerOptions p k :
  workerOptions p !! k =
    match overrides p !! k with
    | Some v => Some v
    | None =>
        match options p !! k with
        | Some v => Some v
        | None => config p !! k
        end
    end.
Proof.
  unfold workerOptions, Obj.spread, Obj.spread2. simpl.
  rewrite !lookup_union, lookup_empty.
  destruct (overrides p !! k), (options p !! k), (config p !! k); reflexivity.
Qed.

Lemma workerOptions_overrides p k v :
  overrides p !! k = Some v → workerOptions p !! k = Some v.
Proof. intros H. rewrite lookup_workerOptions, H. reflexivity. Qed.

Lemma workerOptions_options p k :
  overrides p !! k = None → is_Some (options p !! k) →
  workerOptions p !! k = options p !! k.
Proof.
  intros H [v Hv]. rewrite lookup_workerOptions, H, Hv. reflexivity.
Qed.

Lemma workerOptions_config p k :
  overrides p !! k = None → options p !! k = None →
  workerOptions p !! k = config p !! k.
Proof. intros H1 H2. rewrite lookup_workerOptions, H1, H2. reflexivity. Qed.

Lemma lookup_constructor user k :
  options (constructor user) !! k =
    match user !! k with
    | Some v => Some v
    | None => DEFAULT_OPTIONS !! k
    end.
Proof.
  unfold constructor, Obj.spread, Obj.spread2. simpl.
  rewrite !lookup_union, lookup_empty.
  destruct (user !! k), (DEFAULT_OPTIONS !! k); reflexivity.
Qed.

End Layers.


Section Configure.
Context `{!Node}.
Implicit Types (p : Plugin) (c : Compiler) (comp : Compilation).

Lemma configure_Ok c comp p p' :
  configure c comp p = Ok p' → configured c comp p p'.
Proof.
  unfold configure. intros Hc.
  destruct (resolve_filepath c p) as [filepath|] eqn:E1; [|discriminate].
  destruct (concat_arg _) as [extra|] eqn:E2; [|discriminate].
  cbn in Hc.
  destruct (filter_globs _ _) as [globs|] eqn:E3; [|discriminate].
  destruct (spread_dict _) as [prefixes|] eqn:E4; [|discriminate].
  cbn in Hc.
  destruct (resolve_importScripts _ _ _ _) as [o2|] eqn:E5; [|discriminate].
  cbn in Hc. injection Hc as <-.
  by econstructor.
Qed.

End Configure.

(** ** The job queue *)

Section Queue.
Context `{!Node, !Collaborators}.
Implicit Types (p : Plugin) (c : Compiler) (comp : Compilation).

Lemma workerOptions_checkWarnings comp p :
  workerOptions (fst (checkWarnings comp p)) = workerOptions p.
Proof.
  unfold checkWarnings. by destruct (truthy (Obj.get (workerOptions _) "debug")).
Qed.

Lemma options_checkWarnings comp p :
  options (fst (checkWarnings comp p)) = options p.
Proof.
  unfold checkWarnings. by destruct (truthy (Obj.get (workerOptions _) "debug")).
Qed.

(** A build whose configuration step returns: the final state of the
    machine, with both queues empty. *)
Lemma build_Ok c comp p p1 :
  configure c comp p = Ok p1 →
  let p2 := fst (checkWarnings comp p1) in
  let m := build c comp p in
  plugin m = p2
  ∧ compilation m = snd (checkWarnings comp p1)
  ∧ trace m =
      ([EConfigure; EGenerate (workerOptions p1); ECheckWarnings]
       ++ after_generate p2 (swPrecache_generate (workerOptions p1)))%list
  ∧ microtasks m = [] ∧ macrotasks m = [].
Proof.
  intros Hc. unfold build, after_emit. rewrite Hc.
  destruct (checkWarnings comp p1) as [p2 comp2]. cbn [fst snd].
  generalize (workerOptions p1) as cfg. intros cfg.
  unfold after_generate.
  destruct (swPrecache_generate cfg) as [e|contents] eqn:Eg.
  { cbn. rewrite Eg. cbn. done. }
  cbn. rewrite Eg. cbn.
  destruct (minify_step p2 contents) as [evs [code|[e|k]]] eqn:Em; cbn.
  - destruct (path_arg _) as [filepath|[e|k]] eqn:Ep; cbn;
      rewrite <- ?app_assoc, ?app_nil_r; done.
  - rewrite <- ?app_assoc. done.
  - rewrite ?app_nil_r. done.
Qed.

End Queue.

(** ** Lookups in the layers that [configure] writes *)

Section ConfigureLayers.
Context `{!Node}.
Implicit Types (p : Plugin) (c : Compiler) (comp : Compilation) (k : string).

Lemma lookup_spread2 (a b : gmap string value) k :
  Obj.spread [a; b] !! k =
    match b !! k with Some v => Some v | None => a !! k end.
Proof.
  unfold Obj.spread, Obj.spread2. simpl.
  rewrite !lookup_union, lookup_empty.
  destruct (b !! k), (a !! k); reflexivity.
Qed.

Lemma statics_globs globs prefixes :
  statics globs prefixes !! "staticFileGlobs" = Some (VStrs globs).
Proof. unfold statics. by rewrite lookup_insert_eq. Qed.

Lemma statics_prefixes globs prefixes :
  statics globs prefixes !! "stripPrefixMulti" = Some (VDict prefixes).
Proof.
  unfold statics. rewrite lookup_insert_ne by done. by rewrite lookup_insert_eq.
Qed.

Lemma statics_other globs prefixes k :
  k ≠ "staticFileGlobs" → k ≠ "stripPrefixMulti" →
  statics globs prefixes !! k = None.
Proof.
  intros H1 H2. unfold statics.
  rewrite !lookup_insert_ne by done. apply lookup_empty.
Qed.

Lemma resolve_importScripts_other c comp v o1 o2 k :
  resolve_importScripts c comp v o1 = Ok o2 →
  k ≠ "importScripts" → o2 !! k = o1 !! k.
Proof.
  unfold resolve_importScripts. intros Hr Hk.
  destruct (truthy v).
  - destruct (map_scripts v _) as [l|]; [|discriminate].
    cbn in Hr. injection Hr as <-. by rewrite lookup_insert_ne.
  - by injection Hr as <-.
Qed.

Lemma resolve_importScripts_scripts c comp scripts o1 o2 :
  resolve_importScripts c comp (VStrs scripts) o1 = Ok o2 →
  o2 !! "importScripts" =
    Some (VStrs (map (λ f, url_resolve (default DEFAULT_PUBLIC_PATH (publicPath c))
                            (Replace.replace_hash f (hash comp))) scripts)).
Proof.
  unfold resolve_importScripts. cbn. intros Hr. injection Hr as <-.
  rewrite lookup_insert_eq, map_map. reflexivity.
Qed.

Lemma strip_output_path_lookup c prefixes :
  outputPath c ≠ "" →
  strip_output_path c prefixes !! (outputPath c +:+ path_sep)
  = Some (default DEFAULT_PUBLIC_PATH (publicPath c)).
Proof.
  intros Hne. unfold strip_output_path. cbn.
  destruct (String.eqb_spec (outputPath c) "") as [E|_]; [done|].
  cbn. apply lookup_insert_eq.
Qed.

(** The computed pair is in the Config layer after every [configure]. *)
Lemma configured_config c comp p p' :
  configured c comp p p' →
  ∃ globs prefixes,
    config p' !! "staticFileGlobs" = Some (VStrs globs)
    ∧ config p' !! "stripPrefixMulti" = Some (VDict (strip_output_path c prefixes))
    ∧ (truthy (Obj.get (options p) "mergeStaticsConfig") = true →
       overrides p' !! "staticFileGlobs" = Some (VStrs globs)
       ∧ overrides p' !! "stripPrefixMulti"
         = Some (VDict (strip_output_path c prefixes))).
Proof.
  intros [fp extra globs prefixes o2 _ _ _ _ _ Hcfg _ Hovr _].
  exists globs, prefixes. rewrite Hcfg, Hovr, !lookup_spread2.
  rewrite statics_globs, statics_prefixes. split_and!; [done..|].
  intros ->. by rewrite !lookup_spread2, statics_globs, statics_prefixes.
Qed.

(** The resolved path is in the Overrides layer after every [configure]. *)
Lemma configured_filepath c comp p p' :
  configured c comp p p' →
  ∃ filepath, resolve_filepath c p = Ok filepath
              ∧ overrides p' !! "filepath" = Some filepath.
Proof.
  intros [fp extra globs prefixes o2 Hfp _ _ _ Hi _ _ Hovr _].
  exists fp. split; [done|]. rewrite Hovr.
  assert (o2 !! "filepath" = Some fp) as Ho2.
  { rewrite (resolve_importScripts_other _ _ _ _ _ _ Hi) by done.
    apply lookup_insert_eq. }
  destruct (truthy (Obj.get (options p) "mergeStaticsConfig")); [|done].
  rewrite lookup_spread2, statics_other by done. done.
Qed.

Lemma some_test_Ok patterns text b :
  some_test patterns text = Ok b → b = ignored patterns text.
Proof.
  destruct patterns as [| | | |[|]|l|]; cbn; intros E; try discriminate;
    by injection E as <-.
Qed.

(** A filter that returns has kept the texts no pattern matches. *)
Lemma filter_globs_Ok patterns l r :
  filter_globs patterns l = Ok r →
  r = List.filter (λ text, negb (ignored patterns text)) l.
Proof.
  unfold filter_globs. revert r.
  induction l as [|x l IH]; intros r E; cbn in E.
  - by injection E as <-.
  - destruct (some_test patterns x) as [b|] eqn:Et; [|discriminate].
    cbn in E. apply some_test_Ok in Et as ->.
    destruct (filterM _ l) as [r'|]; [|discriminate].
    cbn in E. injection E as <-. cbn. rewrite <- (IH r' eq_refl).
    by destruct (ignored patterns x).
Qed.

(** On an array of regular expressions the filter always returns. *)
Lemma filter_globs_regs regs l :
  filter_globs (VRegs regs) l
  = Ok (List.filter (λ text, negb (ignored (VRegs regs) text)) l).
Proof.
  unfold filter_globs. induction l as [|x l IH]; [done|].
  cbn. cbn in IH. rewrite IH. cbn.
  by destruct (existsb _ regs).
Qed.

(** On options of the documented types [configure] returns. *)
Lemma configure_typed c comp p :
  typed_options (options p) → ∃ p', configure c comp p = Ok p'.
Proof.
  intros (Hpath & [regs Hregs] & Hglobs & Hprefixes & Hscripts).
  unfold configure.
  assert (∃ fp, resolve_filepath c p = Ok fp) as [fp ->].
  { unfold resolve_filepath.
    destruct Hpath as [Hne|[s Hs]].
    - destruct (Obj.get (options p) "filepath"); eauto. done.
    - rewrite Hs. destruct (Obj.get (options p) "filepath"); cbn; eauto. }
  assert (∃ extra, concat_arg (Obj.get (options p) "staticFileGlobs") = Ok extra)
    as [extra ->].
  { destruct Hglobs as [->|[l ->]]; cbn; eauto. }
  cbn. rewrite Hregs, filter_globs_regs.
  assert (∃ m, spread_dict (Obj.get (options p) "stripPrefixMulti") = Ok m)
    as [m ->].
  { destruct Hprefixes as [->|[m ->]]; cbn; eauto. }
  cbn.
  assert (∃ o2, resolve_importScripts c comp (Obj.get (options p) "importScripts")
                  (<["filepath" := fp]> (overrides p)) = Ok o2) as [o2 ->].
  { unfold resolve_importScripts.
    destruct Hscripts as [->|[l ->]]; cbn; eauto. }
  cbn. eauto.
Qed.

End ConfigureLayers.

(** ** What every instance in use satisfies *)

Section Reachable.
Context `{!Node, !Collaborators}.
Implicit Types (p : Plugin) (c : Compiler) (comp : Compilation) (k : string).

Lemma overrides_checkWarnings comp p :
  overrides (fst (checkWarnings comp p)) = overrides p.
Proof.
  unfold checkWarnings. by destruct (truthy (Obj.get (workerOptions _) "debug")).
Qed.

Lemma config_checkWarnings comp p :
  config (fst (checkWarnings comp p)) = config p.
Proof.
  unfold checkWarnings. by destruct (truthy (Obj.get (workerOptions _) "debug")).
Qed.

(** A handler whose [configure] throws queues nothing. *)
Lemma build_Fail c comp p f :
  configure c comp p = Fail f →
  let m := build c comp p in
  plugin m = interrupted c comp p ∧ compilation m = comp
  ∧ trace m = [EConfigure]
  ∧ halted m = Some f ∧ microtasks m = [] ∧ macrotasks m = [].
Proof. intros Hc. unfold build, after_emit. rewrite Hc. by cbn. Qed.

(** Every build comes to rest: when [build] stops, no job is left. *)
Lemma build_quiescent c comp p : step (build c comp p) = None.
Proof.
  unfold step. destruct (configure c comp p) as [p1|f] eqn:Hc.
  - by destruct (build_Ok c comp p p1 Hc) as (_ & _ & _ & -> & ->).
  - by destruct (build_Fail c comp p f Hc) as (_ & _ & _ & _ & -> & ->).
Qed.

Lemma plugin_build c comp p :
  plugin (build c comp p) =
    match configure c comp p with
    | Ok p1 => fst (checkWarnings comp p1)
    | Fail _ => interrupted c comp p
    end.
Proof.
  destruct (configure c comp p) as [p1|f] eqn:Hc.
  - by destruct (build_Ok c comp p p1 Hc) as [-> _].
  - by destruct (build_Fail c comp p f Hc) as [-> _].
Qed.

(** The options never change, and the computed pair enters the overrides
    only when [mergeStaticsConfig] is on. *)
Lemma reachable_inv user p :
  reachable user p →
  options p = options (constructor user)
  ∧ (truthy (Obj.get (options p) "mergeStaticsConfig") = false →
     overrides p !! "staticFileGlobs" = None
     ∧ overrides p !! "stripPrefixMulti" = None).
Proof.
  induction 1 as [|c comp p p1 _ [IHo IHm] Hc]; [done|].
  rewrite plugin_build, Hc.
  rewrite options_checkWarnings, overrides_checkWarnings.
  destruct (configure_Ok _ _ _ _ Hc)
    as [fp extra globs prefixes o2 _ _ _ _ Hi _ Hopt Hovr _].
  rewrite Hopt. split; [done|]. intros Hm.
  rewrite Hovr, Hm.
  rewrite !(resolve_importScripts_other _ _ _ _ _ _ Hi) by done.
  rewrite !lookup_insert_ne by done. auto.
Qed.

End Reachable.

(** ** Precedence of the layers *)

Section Precedence.
Context `{!Node, !Collaborators}.
Implicit Types (p : Plugin) (c : Compiler) (comp : Compilation) (k : string).

(** C2. In the configuration handed to the generator, every key of the
    Overrides layer has the value of that layer, whatever the Config and
    Options layers hold for it; after [configure] the Overrides hold the
    resolved output path, the resolved import scripts when [importScripts]
    is truthy, and the computed globs and prefix map when
    [mergeStaticsConfig] is truthy. *)
Theorem overrides_take_final_precedence c comp p p' :
  configure c comp p = Ok p' →
  (∃ rest, trace (build c comp p)
           = EConfigure :: EGenerate (workerOptions p') :: rest)
  ∧ (∀ k v, overrides p' !! k = Some v → workerOptions p' !! k = Some v)
  ∧ (∃ filepath, resolve_filepath c p = Ok filepath
                 ∧ overrides p' !! "filepath" = Some filepath)
  ∧ (truthy (Obj.get (options p) "importScripts") = true →
     ∃ resolved, overrides p' !! "importScripts" = Some (VStrs resolved))
  ∧ (truthy (Obj.get (options p) "mergeStaticsConfig") = true →
     overrides p' !! "staticFileGlobs" = config p' !! "staticFileGlobs"
     ∧ overrides p' !! "stripPrefixMulti" = config p' !! "stripPrefixMulti"
     ∧ is_Some (overrides p' !! "staticFileGlobs")
     ∧ is_Some (overrides p' !! "stripPrefixMulti")).
Proof.
  intros Hc. pose proof (configure_Ok _ _ _ _ Hc) as Hcfg.
  split_and!.
  - destruct (build_Ok c comp p p' Hc) as (_ & _ & -> & _). eauto.
  - apply workerOptions_overrides.
  - exact (configured_filepath _ _ _ _ Hcfg).
  - intros Ht.
    destruct Hcfg as [fp extra globs prefixes o2 _ _ _ _ Hi _ _ Hovr _].
    unfold resolve_importScripts in Hi. rewrite Ht in Hi.
    destruct (map_scripts _ _) as [l|]; [|discriminate].
    cbn in Hi. injection Hi as <-.
    eexists. rewrite Hovr.
    destruct (truthy (Obj.get (options p) "mergeStaticsConfig")).
    + rewrite lookup_spread2, statics_other by done. apply lookup_insert_eq.
    + apply lookup_insert_eq.
  - intros Hm.
    destruct (configured_config _ _ _ _ Hcfg) as (g & m & Hg & Hp & Ho).
    destruct (Ho Hm) as [Hog Hop]. rewrite Hog, Hop, Hg, Hp. eauto.
Qed.

End Precedence.

Lemma overrides_take_final_precedence_witness :
  ∃ p',
    @configure Sample.posix Sample.compiler Sample.compilation
      (constructor Sample.merging) = Ok p'
    ∧ is_Some (overrides p' !! "importScripts")
    ∧ is_Some (overrides p' !! "staticFileGlobs")
    ∧ ∀ k v, overrides p' !! k = Some v → workerOptions p' !! k = Some v.
Proof.
  destruct (@configure Sample.posix Sample.compiler Sample.compilation
              (constructor Sample.merging)) as [p'|f] eqn:E.
  - exists p'. split; [reflexivity|].
    destruct (@overrides_take_final_precedence Sample.posix Sample.healthy
                _ _ _ _ E) as (_ & Hall & _ & Hi & Hm).
    destruct (Hi eq_refl) as [l Hl].
    destruct (Hm eq_refl) as (_ & _ & Hg & _).
    split_and!; [by exists (VStrs l) | exact Hg | exact Hall].
  - vm_compute in E. discriminate.
Defined.

Section Statics.
Context `{!Node, !Collaborators}.
Implicit Types (p : Plugin) (c : Compiler) (comp : Compilation) (k : string).

(** After a build the overrides of a reachable instance still lack the
    computed pair unless [mergeStaticsConfig] is on. *)
Lemma configure_overrides_statics user c comp p p' :
  reachable user p → configure c comp p = Ok p' →
  truthy (Obj.get (options p) "mergeStaticsConfig") = false →
  overrides p' !! "staticFileGlobs" = None
  ∧ overrides p' !! "stripPrefixMulti" = None.
Proof.
  intros Hr Hc Hm.
  destruct (reachable_inv user _ (reach_build user c comp p p' Hr Hc)) as [Ho Hi].
  rewrite plugin_build, Hc in Ho, Hi.
  rewrite options_checkWarnings in Ho, Hi.
  rewrite overrides_checkWarnings in Hi.
  apply Hi. destruct (configure_Ok _ _ _ _ Hc). congruence.
Qed.

Lemma reachable_options user p k :
  reachable user p →
  options p !! k =
    match user !! k with Some v => Some v | None => DEFAULT_OPTIONS !! k end.
Proof.
  intros Hr. destruct (reachable_inv user p Hr) as [-> _].
  apply lookup_constructor.
Qed.

(** C3, amended. When the output directory is known, the prefix map of
    the effective configuration maps the output directory followed by the
    separator to the public path if [mergeStaticsConfig] is truthy (also
    against a user entry for that key) or if the user gave no
    [stripPrefixMulti] option. *)
Theorem output_prefix_entry user c comp p p' :
  reachable user p →
  configure c comp p = Ok p' →
  outputPath c ≠ "" →
  truthy (Obj.get (options p) "mergeStaticsConfig") = true
  ∨ user !! "stripPrefixMulti" = None →
  strips_output_path c (workerOptions p').
Proof.
  intros Hr Hc Hout Hcase.
  destruct (configured_config _ _ _ _ (configure_Ok _ _ _ _ Hc))
    as (globs & prefixes & _ & Hp & Ho).
  exists (strip_output_path c prefixes).
  split; [|by apply strip_output_path_lookup].
  destruct (truthy (Obj.get (options p) "mergeStaticsConfig")) eqn:Hm.
  - apply workerOptions_overrides. by apply Ho.
  - destruct Hcase as [|Hu]; [done|].
    destruct (configure_overrides_statics user c comp p p' Hr Hc Hm) as [_ Hn].
    rewrite workerOptions_config; [done..|].
    destruct (configure_Ok _ _ _ _ Hc) as [? ? ? ? ? _ _ _ _ _ _ -> _ _].
    by rewrite (reachable_options user p _ Hr), Hu.
Qed.

(** C5. With [mergeStaticsConfig] falsy the user's [staticFileGlobs] and
    [stripPrefixMulti], when given, are the ones of the effective
    configuration; with [mergeStaticsConfig] truthy the computed ones
    are. *)
Theorem statics_precedence user c comp p p' :
  reachable user p →
  configure c comp p = Ok p' →
  ∃ globs prefixes,
    config p' !! "staticFileGlobs" = Some (VStrs globs)
    ∧ config p' !! "stripPrefixMulti" = Some (VDict prefixes)
    ∧ (truthy (Obj.get (options p) "mergeStaticsConfig") = false →
       ∀ k v, k = "staticFileGlobs" ∨ k = "stripPrefixMulti" →
              user !! k = Some v → workerOptions p' !! k = Some v)
    ∧ (truthy (Obj.get (options p) "mergeStaticsConfig") = true →
       workerOptions p' !! "staticFileGlobs" = Some (VStrs globs)
       ∧ workerOptions p' !! "stripPrefixMulti" = Some (VDict prefixes)).
Proof.
  intros Hr Hc.
  destruct (configured_config _ _ _ _ (configure_Ok _ _ _ _ Hc))
    as (globs & prefixes & Hg & Hp & Ho).
  exists globs, (strip_output_path c prefixes). split_and!; [done..| |].
  - intros Hm k v Hk Hu.
    destruct (configure_overrides_statics user c comp p p' Hr Hc Hm) as [Hn1 Hn2].
    assert (options p' !! k = Some v) as Hopt.
    { destruct (configure_Ok _ _ _ _ Hc) as [? ? ? ? ? _ _ _ _ _ _ -> _ _].
      by rewrite (reachable_options user p _ Hr), Hu. }
    rewrite workerOptions_options, Hopt; [done| |by rewrite Hopt].
    by destruct Hk as [-> | ->].
  - intros Hm. destruct (Ho Hm).
    split; by apply workerOptions_overrides.
Qed.

End Statics.

Lemma output_prefix_entry_counterexample :
  ∃ p',
    @configure Sample.posix Sample.compiler Sample.compilation
      (constructor Sample.conflicting) = Ok p'
    ∧ outputPath Sample.compiler ≠ ""
    ∧ ¬ @strips_output_path Sample.posix Sample.compiler (workerOptions p').
Proof.
  eexists. split; [vm_compute; reflexivity|]. split; [done|].
  intros (m & Hm & Hl). vm_compute in Hm. injection Hm as <-.
  vm_compute in Hl. discriminate.
Qed.

Lemma output_prefix_entry_witness :
  ∃ p',
    @configure Sample.posix Sample.compiler Sample.compilation
      (constructor Sample.merging) = Ok p'
    ∧ @strips_output_path Sample.posix Sample.compiler (workerOptions p').
Proof.
  destruct (@configure Sample.posix Sample.compiler Sample.compilation
              (constructor Sample.merging)) as [p'|f] eqn:E.
  - exists p'. split; [reflexivity|].
    apply (@output_prefix_entry Sample.posix Sample.healthy Sample.merging
             Sample.compiler Sample.compilation (constructor Sample.merging) p').
    + apply reach_constructor.
    + exact E.
    + discriminate.
    + left. reflexivity.
  - vm_compute in E. discriminate.
Defined.

Lemma statics_precedence_witness :
  (∃ p',
     @configure Sample.posix Sample.compiler Sample.compilation
       (constructor Sample.conflicting) = Ok p'
     ∧ workerOptions p' !! "stripPrefixMulti"
       = Some (VDict (<["/dist/" := "/other/"]> ∅))
     ∧ workerOptions p' !! "staticFileGlobs" = Some (VStrs ["/static/x.png"]))
  ∧ (∃ p',
       @configure Sample.posix Sample.compiler Sample.compilation
         (constructor Sample.merging) = Ok p'
       ∧ workerOptions p' !! "stripPrefixMulti" = config p' !! "stripPrefixMulti"
       ∧ workerOptions p' !! "staticFileGlobs" = config p' !! "staticFileGlobs").
Proof.
  split.
  - destruct (@configure Sample.posix Sample.compiler Sample.compilation
                (constructor Sample.conflicting)) as [p'|f] eqn:E.
    + exists p'. split; [reflexivity|].
      destruct (@statics_precedence Sample.posix Sample.healthy
                  Sample.conflicting Sample.compiler Sample.compilation _ p'
                  (reach_constructor _) E) as (g & m & _ & _ & Hoff & _).
      split; apply (Hoff eq_refl); auto.
    + vm_compute in E. discriminate.
  - destruct (@configure Sample.posix Sample.compiler Sample.compilation
                (constructor Sample.merging)) as [p'|f] eqn:E.
    + exists p'. split; [reflexivity|].
      destruct (@statics_precedence Sample.posix Sample.healthy
                  Sample.merging Sample.compiler Sample.compilation _ p'
                  (reach_constructor _) E) as (g & m & Hg & Hm & _ & Hon).
      destruct (Hon eq_refl) as [-> ->]. by rewrite Hg, Hm.
    + vm_compute in E. discriminate.
Defined.

(** ** The computed glob list and the output path *)

Section Computed.
Context `{!Node, !Collaborators}.
Implicit Types (p : Plugin) (c : Compiler) (comp : Compilation) (k : string).


End Computed.


(** ** What a build writes and reports *)

Section Trace.
Context `{!Node, !Collaborators}.
Implicit Types (p : Plugin) (c : Compiler) (comp : Compilation) (k : string).

Lemma writes_app tr1 tr2 : writes (tr1 ++ tr2) = (writes tr1 ++ writes tr2)%list.
Proof. apply flat_map_app. Qed.

Lemma callbacks_app tr1 tr2 :
  callbacks (tr1 ++ tr2) = (callbacks tr1 ++ callbacks tr2)%list.
Proof. apply flat_map_app. Qed.

(** The minifying step neither writes nor reports. *)
Lemma minify_step_silent p contents :
  writes (fst (minify_step p contents)) = []
  ∧ callbacks (fst (minify_step p contents)) = [].
Proof.
  unfold minify_step.
  destruct (truthy _); [|done]. by destruct (property_key _).
Qed.

Lemma minify_step_off p contents :
  truthy (Obj.get (options p) "minify") = false →
  minify_step p contents = ([], Ok contents).
Proof. unfold minify_step. by intros ->. Qed.

Lemma minify_step_on p contents key :
  truthy (Obj.get (options p) "minify") = true →
  property_key (Obj.get (options p) "filename") = Ok key →
  minify_step p contents =
    ([EMinify key contents],
     match UglifyJS_minify key contents with
     | inr code => Ok code
     | inl e => Fail (Throw e)
     end).
Proof. unfold minify_step. by intros -> ->. Qed.

Lemma path_arg_Ok (o : gmap string value) k s :
  path_arg (Obj.get o k) = Ok s ↔ o !! k = Some (VStr s).
Proof.
  unfold Obj.get. split.
  - destruct (o !! k) as [[]|]; cbn; intros E; try discriminate.
    by injection E as <-.
  - by intros ->.
Qed.

(** The writes of a build, from the outcome of each collaborator. *)
Lemma writes_after_generate p outcome :
  writes (after_generate p outcome) =
    match outcome with
    | inl _ => []
    | inr contents =>
        match snd (minify_step p contents),
              path_arg (Obj.get (workerOptions p) "filepath") with
        | Ok code, Ok filepath => [(filepath, code)]
        | _, _ => []
        end
    end.
Proof.
  destruct outcome as [e|contents]; [done|]. unfold after_generate.
  destruct (minify_step_silent p contents) as [Hw _].
  destruct (minify_step p contents) as [evs r]. cbn [fst snd] in *.
  rewrite writes_app, Hw. cbn [app].
  destruct r as [code|[e|k]]; [|done..].
  by destruct (path_arg _) as [filepath|[e|k]].
Qed.

(** The calls of the completion callback in a build. *)
Lemma callbacks_after_generate p outcome :
  callbacks (after_generate p outcome) =
    match outcome with
    | inl e => [Some e]
    | inr contents =>
        match snd (minify_step p contents) with
        | Ok code =>
            match path_arg (Obj.get (workerOptions p) "filepath") with
            | Ok filepath => [None; fs_writeFile filepath code]
            | Fail (Throw e) => [Some e]
            | Fail (Unmodelled _) => []
            end
        | Fail (Throw e) => [Some e]
        | Fail (Unmodelled _) => []
        end
    end.
Proof.
  destruct outcome as [e|contents]; [done|]. unfold after_generate.
  destruct (minify_step_silent p contents) as [_ Hcb].
  destruct (minify_step p contents) as [evs r]. cbn [fst snd] in *.
  rewrite callbacks_app, Hcb. cbn [app].
  destruct r as [code|[e|k]]; [|done..].
  by destruct (path_arg _) as [filepath|[e|k]].
Qed.

Lemma writes_build c comp p p' :
  configure c comp p = Ok p' →
  writes (trace (build c comp p))
  = writes (after_generate (fst (checkWarnings comp p'))
              (swPrecache_generate (workerOptions p'))).
Proof.
  intros Hc. destruct (build_Ok c comp p p' Hc) as (_ & _ & -> & _).
  by rewrite writes_app.
Qed.

Lemma callbacks_build c comp p p' :
  configure c comp p = Ok p' →
  callbacks (trace (build c comp p))
  = callbacks (after_generate (fst (checkWarnings comp p'))
                 (swPrecache_generate (workerOptions p'))).
Proof.
  intros Hc. destruct (build_Ok c comp p p' Hc) as (_ & _ & -> & _).
  by rewrite callbacks_app.
Qed.

(** C7. The path that the write uses is the one in the effective
    configuration: the user's [filepath] when given, else the output
    directory resolved with the [filename] option, which is
    [service-worker.js] unless the user gave one. *)
Theorem resolved_output_path user c comp p p' :
  reachable user p →
  configure c comp p = Ok p' →
  (∀ v, user !! "filepath" = Some v → v ≠ VUndef →
        workerOptions p' !! "filepath" = Some v)
  ∧ (user !! "filepath" = None ∨ user !! "filepath" = Some VUndef →
     ∃ name,
       default (VStr DEFAULT_WORKER_FILENAME) (user !! "filename") = VStr name
       ∧ workerOptions p' !! "filepath"
         = Some (VStr (path_resolve (outputPath c) name)))
  ∧ (∀ path content,
       In (path, content) (writes (trace (build c comp p))) →
       workerOptions p' !! "filepath" = Some (VStr path)).
Proof.
  intros Hr Hc.
  destruct (configured_filepath _ _ _ _ (configure_Ok _ _ _ _ Hc))
    as (fp & Hfp & Ho).
  apply workerOptions_overrides in Ho. rewrite Ho.
  unfold resolve_filepath, Obj.get in Hfp.
  rewrite !(reachable_options user p _ Hr) in Hfp.
  split_and!.
  - intros v Hv Hne. rewrite Hv in Hfp. cbn [default] in Hfp.
    destruct v; try done; by injection Hfp as <-.
  - intros Hv.
    assert (DEFAULT_OPTIONS !! "filepath" = None) as Hd1 by reflexivity.
    assert (DEFAULT_OPTIONS !! "filename" = Some (VStr DEFAULT_WORKER_FILENAME))
      as Hd2 by reflexivity.
    rewrite Hd1, Hd2 in Hfp.
    assert (default VUndef
              match user !! "filepath" with
              | Some v => Some v
              | None => None
              end = VUndef) as E.
    { by destruct Hv as [-> | ->]. }
    rewrite E in Hfp.
    destruct (user !! "filename") as [v|]; cbn in Hfp |- *.
    + destruct v; cbn in Hfp; try discriminate. injection Hfp as <-. eauto.
    + injection Hfp as <-. eauto.
  - intros path content Hin.
    rewrite (writes_build _ _ _ _ Hc), writes_after_generate in Hin.
    destruct (swPrecache_generate _) as [e|contents]; [done|].
    destruct (snd (minify_step _ contents)) as [code|]; [|done].
    destruct (path_arg (Obj.get (workerOptions _) _)) as [filepath|] eqn:Ep;
      [|destruct Hin].
    destruct Hin as [Hin|[]]. injection Hin as <- <-.
    apply path_arg_Ok in Ep.
    rewrite workerOptions_checkWarnings in Ep. congruence.
Qed.

End Trace.

Lemma resolved_output_path_witness :
  ∃ p',
    @configure Sample.posix Sample.compiler Sample.compilation (constructor ∅)
    = Ok p'
    ∧ workerOptions p' !! "filepath" = Some (VStr "/dist/service-worker.js")
    ∧ writes (trace (@build Sample.posix Sample.healthy Sample.compiler
                       Sample.compilation (constructor ∅)))
      = [("/dist/service-worker.js", "self.addEventListener('install', f);")].
Proof.
  destruct (@configure Sample.posix Sample.compiler Sample.compilation
              (constructor ∅)) as [p'|f] eqn:E.
  - exists p'. split; [reflexivity|].
    destruct (@resolved_output_path Sample.posix Sample.healthy ∅
                Sample.compiler Sample.compilation _ p'
                (reach_constructor _) E) as (_ & Hdefault & _).
    destruct (Hdefault (or_introl eq_refl)) as (name & Hname & ->).
    injection Hname as <-. split; reflexivity.
  - vm_compute in E. discriminate.
Defined.

Section Minify.
Context `{!Node, !Collaborators}.
Implicit Types (p : Plugin) (c : Compiler) (comp : Compilation) (k : string).

(** C8. For a source that the generator returned: with [minify] truthy
    the minifier is called on that source under the key that the [filename]
    option names, the file is written with the minifier's output, and a
    failing minifier ends the build with its error and without a write; with
    [minify] falsy the file is written with the generator's output itself. *)
Theorem written_content c comp p p' source filepath :
  configure c comp p = Ok p' →
  swPrecache_generate (workerOptions p') = inr source →
  workerOptions p' !! "filepath" = Some (VStr filepath) →
  let tr := trace (build c comp p) in
  (truthy (Obj.get (options p) "minify") = false →
   writes tr = [(filepath, source)])
  ∧ (truthy (Obj.get (options p) "minify") = true →
     ∀ name, Obj.get (options p) "filename" = VStr name →
       In (EMinify name source) tr
       ∧ (∀ key src, In (EMinify key src) tr → key = name ∧ src = source)
       ∧ (∀ code, UglifyJS_minify name source = inr code →
                  writes tr = [(filepath, code)])
       ∧ (∀ e, UglifyJS_minify name source = inl e →
               writes tr = [] ∧ callbacks tr = [Some e])).
Proof.
  intros Hc Hg Hfp tr. subst tr.
  rewrite (writes_build _ _ _ _ Hc), (callbacks_build _ _ _ _ Hc).
  rewrite writes_after_generate, callbacks_after_generate, Hg.
  destruct (build_Ok c comp p p' Hc) as (_ & _ & -> & _).
  rewrite Hg. unfold after_generate.
  set (p2 := fst (checkWarnings comp p')).
  assert (options p2 = options p) as Hopt.
  { unfold p2. rewrite options_checkWarnings.
    by destruct (configure_Ok _ _ _ _ Hc). }
  assert (path_arg (Obj.get (workerOptions p2) "filepath") = Ok filepath) as Hp.
  { unfold p2. rewrite workerOptions_checkWarnings. by apply path_arg_Ok. }
  split.
  - intros Hm. rewrite minify_step_off by (by rewrite Hopt).
    cbn [snd]. by rewrite Hp.
  - intros Hm name Hn.
    assert (property_key (Obj.get (options p2) "filename") = Ok name) as Hk.
    { by rewrite Hopt, Hn. }
    rewrite (minify_step_on p2 source name) by (by rewrite ?Hopt, ?Hn).
    cbn [snd]. split_and!.
    + apply in_or_app. right. by left.
    + intros key src Hin.
      apply in_app_or in Hin as [Hin|Hin].
      { destruct Hin as [|[|[|[]]]]; discriminate. }
      apply in_app_or in Hin as [Hin|Hin].
      { destruct Hin as [Hin|[]]. by injection Hin as <- <-. }
      destruct (UglifyJS_minify name source) as [e|code].
      * destruct Hin as [|[]]; discriminate.
      * rewrite Hp in Hin.
        repeat (destruct Hin as [Hin|Hin]; [discriminate|]). destruct Hin.
    + intros code ->. by rewrite Hp.
    + by intros e ->.
Qed.

(** A rejection of the generator reaches the callback, and nothing is
    written. *)
Lemma generator_rejection c comp p p' e :
  configure c comp p = Ok p' →
  swPrecache_generate (workerOptions p') = inl e →
  trace (build c comp p)
  = [EConfigure; EGenerate (workerOptions p'); ECheckWarnings;
     ECallback (Some e)].
Proof.
  intros Hc Hg. destruct (build_Ok c comp p p' Hc) as (_ & _ & -> & _).
  by rewrite Hg.
Qed.

(** Whenever a build writes the file, the host's callback has been called
    with success before the directory was there, and [checkWarnings] ran
    before the generator returned. *)
Lemma write_follows_callback c comp p p' filepath content :
  configure c comp p = Ok p' →
  In (filepath, content) (writes (trace (build c comp p))) →
  ∃ evs,
    trace (build c comp p) =
      ([EConfigure; EGenerate (workerOptions p'); ECheckWarnings] ++ evs ++
       [EMkdirp (path_resolve filepath "..");
        ECallback None;
        EMkdirpDone (fs_mkdirp (path_resolve filepath ".."));
        EWriteFile filepath content;
        EWriteFileDone (fs_writeFile filepath content);
        ECallback (fs_writeFile filepath content)])%list.
Proof.
  intros Hc Hin.
  rewrite (writes_build _ _ _ _ Hc), writes_after_generate in Hin.
  destruct (build_Ok c comp p p' Hc) as (_ & _ & -> & _).
  unfold after_generate.
  destruct (swPrecache_generate _) as [e|contents]; [destruct Hin|].
  destruct (minify_step _ contents) as [evs [code|f]]; cbn [snd] in Hin;
    [|destruct Hin].
  destruct (path_arg _) as [fp|f]; [|destruct Hin].
  destruct Hin as [Hin|[]]. injection Hin as <- <-. by exists evs.
Qed.

End Minify.

Lemma written_content_witness :
  let tr := trace (@build Sample.posix Scenario.keyed Sample.compiler
                     Sample.compilation (constructor Scenario.minified)) in
  ∃ p',
    @configure Sample.posix Sample.compiler Sample.compilation
      (constructor Scenario.minified) = Ok p'
    ∧ In (EMinify "sw.js" "self.addEventListener('install', f);") tr
    ∧ writes tr
      = [("/dist/sw.js", "sw.js:self.addEventListener('install', f);")].
Proof.
  intros tr.
  destruct (@configure Sample.posix Sample.compiler Sample.compilation
              (constructor Scenario.minified)) as [p'|f] eqn:E.
  - exists p'. split; [reflexivity|].
    assert (workerOptions p' !! "filepath" = Some (VStr "/dist/sw.js")) as Hfp.
    { vm_compute in E. injection E as <-. reflexivity. }
    destruct (@written_content Sample.posix Scenario.keyed Sample.compiler
                Sample.compilation _ p' _ _ E eq_refl Hfp) as [_ Hon].
    destruct (Hon eq_refl "sw.js" eq_refl) as (Hcall & _ & Hcode & _).
    split; [exact Hcall|]. exact (Hcode _ eq_refl).
  - vm_compute in E. discriminate.
Defined.

(** ** The placeholder substitution *)

Section ReplaceFacts.
Import Replace.
Implicit Types (s t u p r h : string).











(** The scan at a character where no match starts. *)
Lemma replace_from_char repl before c s :
  strip_prefix token (String c s) = None →
  replace_from repl 0 before (String c s)
  = String c (replace_from repl 0 (before +:+ String c "") s).
Proof. intros E. cbn [replace_from]. by rewrite E. Qed.


Lemma contains_cons p c s :
  contains p (String c s) = false →
  strip_prefix p (String c s) = None ∧ contains p s = false.
Proof.
  cbn [contains]. by destruct (strip_prefix p (String c s)).
Qed.

(** A text without the placeholder is left as it is. *)
Lemma replace_from_absent repl before s :
  contains token s = false → replace_from repl 0 before s = s.
Proof.
  revert before. induction s as [|c s IH]; intros before Hc; [done|].
  destruct (contains_cons _ _ _ Hc) as [Hp Hs].
  rewrite replace_from_char by done. by rewrite IH.
Qed.












End ReplaceFacts.

Section ImportScripts.
Context `{!Node}.
Implicit Types (p : Plugin) (c : Compiler) (comp : Compilation) (k : string).


End ImportScripts.



Example replace_hash_every_occurrence :
  Replace.replace_hash "[hash]/a-[hash].[hash" "0123abcd"
  = "0123abcd/a-0123abcd.[hash".
Proof. reflexivity. Qed.

(** The sample build resolves its import script to one URL. *)
Example import_scripts_sample :
  ∃ p',
    @configure Sample.posix Sample.compiler Sample.compilation
      (constructor Sample.merging) = Ok p'
    ∧ workerOptions p' !! "importScripts"
      = Some (VStrs ["/assets/sw-0123abcd.js"]).
Proof. eexists. split; vm_compute; reflexivity. Qed.

(** A dollar sign in the replacement text is read as a pattern. *)
Example replace_hash_dollar :
  Replace.replace_hash "sw-[hash].js" "a$&b" = "sw-a[hash]b.js".
Proof. reflexivity. Qed.

Section Warnings.
Context `{!Node, !Collaborators}.
Implicit Types (p : Plugin) (c : Compiler) (comp : Compilation) (k : string).

(** C10, amended. With the effective [debug] flag falsy a build adds
    nothing to the host's warnings, whatever options are in use.  With
    [debug] truthy the host's warnings receive what the instance has
    gathered: the warnings already in its list, then one for [filepath] and
    one for [forceDelete] where the option is truthy; so each condition that
    holds has its warning there, and on the first build of an instance
    exactly one. *)
Theorem warnings_reach_host c comp p p' :
  configure c comp p = Ok p' →
  let comp' := compilation (build c comp p) in
  let raised :=
    ((if truthy (Obj.get (options p) "filepath")
      then [FILEPATH_WARNING] else []) ++
     (if truthy (Obj.get (options p) "forceDelete")
      then [FORCEDELETE_WARNING] else []))%list in
  (truthy (Obj.get (workerOptions p') "debug") = false →
   comp_warnings comp' = comp_warnings comp)
  ∧ (truthy (Obj.get (workerOptions p') "debug") = true →
     comp_warnings comp' = (comp_warnings comp ++ warnings p ++ raised)%list
     ∧ (truthy (Obj.get (options p) "filepath") = true →
        In FILEPATH_WARNING (comp_warnings comp'))
     ∧ (truthy (Obj.get (options p) "forceDelete") = true →
        In FORCEDELETE_WARNING (comp_warnings comp'))
     ∧ (warnings p = [] → comp_warnings comp' = (comp_warnings comp ++ raised)%list)).
Proof.
  intros Hc comp' raised. subst comp'.
  destruct (build_Ok c comp p p' Hc) as (_ & -> & _).
  destruct (configure_Ok _ _ _ _ Hc) as [? ? ? ? ? _ _ _ _ _ _ Hopt _ Hw].
  unfold checkWarnings.
  change (workerOptions {| config := config p'; options := options p';
                           overrides := overrides p'; warnings := ?w |})
    with (workerOptions p').
  rewrite Hopt, Hw.
  assert ((if truthy (Obj.get (options p) "forceDelete")
           then ((if truthy (Obj.get (options p) "filepath")
                  then warnings p ++ [FILEPATH_WARNING] else warnings p)
                 ++ [FORCEDELETE_WARNING])
           else (if truthy (Obj.get (options p) "filepath")
                 then warnings p ++ [FILEPATH_WARNING] else warnings p))%list
          = (warnings p ++ raised)%list) as ->.
  { subst raised.
    destruct (truthy (Obj.get (options p) "filepath")),
             (truthy (Obj.get (options p) "forceDelete"));
      cbn; rewrite <- ?app_assoc, ?app_nil_r; reflexivity. }
  destruct (truthy (Obj.get (workerOptions p') "debug")); cbn [snd comp_warnings].
  - split; [done|]. intros _. split_and!; [done| | |by intros ->].
    + intros Hf. subst raised. rewrite Hf.
      apply in_or_app. right. apply in_or_app. right. by left.
    + intros Hf. subst raised. rewrite Hf.
      apply in_or_app. right. apply in_or_app. right.
      apply in_or_app. right. by left.
  - split; [done|]. done.
Qed.

End Warnings.

Lemma warnings_reach_host_witness :
  ∃ p',
    @configure Sample.posix Sample.compiler Sample.compilation
      (constructor Sample.legacy) = Ok p'
    ∧ comp_warnings
        (compilation (@build Sample.posix Sample.healthy Sample.compiler
                        Sample.compilation (constructor Sample.legacy)))
      = [FILEPATH_WARNING; FORCEDELETE_WARNING].
Proof.
  destruct (@configure Sample.posix Sample.compiler Sample.compilation
              (constructor Sample.legacy)) as [p'|f] eqn:E.
  - exists p'. split; [reflexivity|].
    destruct (@warnings_reach_host Sample.posix Sample.healthy Sample.compiler
                Sample.compilation _ p' E) as [_ Hon].
    assert (truthy (Obj.get (workerOptions p') "debug") = true) as Hd.
    { vm_compute in E. injection E as <-. reflexivity. }
    destruct (Hon Hd) as (_ & _ & _ & Hfirst).
    exact (Hfirst eq_refl).
  - vm_compute in E. discriminate.
Defined.

Lemma warnings_reach_host_counterexample :
  let used :=
    plugin (@build Sample.posix Sample.healthy Sample.compiler
              Sample.compilation (constructor Sample.legacy)) in
  let comp' :=
    compilation (@build Sample.posix Sample.healthy Sample.compiler
                   Sample.compilation used) in
  ∃ p',
    @configure Sample.posix Sample.compiler Sample.compilation used = Ok p'
    ∧ truthy (Obj.get (workerOptions p') "debug") = true
    ∧ comp_warnings comp'
      = [FILEPATH_WARNING; FORCEDELETE_WARNING;
         FILEPATH_WARNING; FORCEDELETE_WARNING]
    ∧ count_occ String.string_dec (comp_warnings comp') FILEPATH_WARNING = 2
    ∧ count_occ String.string_dec (comp_warnings comp') FORCEDELETE_WARNING = 2.
Proof. eexists. split_and!; vm_compute; reflexivity. Qed.

(** ** Two builds, event by event *)

(** C1. A build with the default options on a host where everything
    succeeds: [checkWarnings] runs before the generator has returned, and
    the host's callback is called with success when [mkdirp] has only been
    started, before [writeFile] is called; the callback is called a second
    time when the write has finished. *)
Theorem callback_before_write_finishes :
  ∃ cfg,
    trace (@build Sample.posix Sample.healthy Sample.compiler
             Sample.compilation (constructor ∅))
    = [EConfigure;
       EGenerate cfg;
       ECheckWarnings;
       EMkdirp "/dist";
       ECallback None;
       EMkdirpDone None;
       EWriteFile "/dist/service-worker.js" "self.addEventListener('install', f);";
       EWriteFileDone None;
       ECallback None].
Proof. eexists. vm_compute. reflexivity. Qed.

(** C4. The same build on a disk where neither the directory nor the file
    can be created: the host's callback is called with success first, the
    error of [mkdirp] is dropped and [writeFile] is called all the same;
    only the error of [writeFile] reaches the callback, in a second call. *)
Theorem mkdirp_error_is_dropped :
  ∃ cfg,
    trace (@build Sample.posix Sample.read_only_disk Sample.compiler
             Sample.compilation (constructor ∅))
    = [EConfigure;
       EGenerate cfg;
       ECheckWarnings;
       EMkdirp "/dist";
       ECallback None;
       EMkdirpDone (Some (Error "EROFS"));
       EWriteFile "/dist/service-worker.js" "self.addEventListener('install', f);";
       EWriteFileDone (Some (Error "EROFS"));
       ECallback (Some (Error "EROFS"))].
Proof. eexists. vm_compute. reflexivity. Qed.

(** The sample host with the default options: the two assets joined with
    the output directory, the default file name in the output directory,
    and the output directory stripped in favour of the public path. *)
Example default_build :
  ∃ p',
    @configure Sample.posix Sample.compiler Sample.compilation (constructor ∅)
    = Ok p'
    ∧ workerOptions p' !! "staticFileGlobs"
      = Some (VStrs ["/dist/a.js"; "/dist/b.css"])
    ∧ workerOptions p' !! "filepath" = Some (VStr "/dist/service-worker.js")
    ∧ workerOptions p' !! "stripPrefixMulti"
      = Some (VDict (<["/dist/" := "/assets/"]> ∅)).
Proof. eexists. split_and!; vm_compute; reflexivity. Qed.

(** ** The keys of the layers *)

Section Keys.
Context `{!Node, !Collaborators}.
Implicit Types (p q : Plugin) (c : Compiler) (comp : Compilation) (k : string).

Lemma statics_Some globs prefixes k v :
  statics globs prefixes !! k = Some v →
  k = "staticFileGlobs" ∨ k = "stripPrefixMulti".
Proof.
  intros Hk.
  destruct (decide (k = "staticFileGlobs")) as [|H1]; [by left|].
  destruct (decide (k = "stripPrefixMulti")) as [|H2]; [by right|].
  by rewrite statics_other in Hk.
Qed.

(** Apart from [importScripts], [resolve_importScripts] leaves the object
    it is given as it was. *)
Lemma resolve_importScripts_lookup c comp v o1 o2 k :
  resolve_importScripts c comp v o1 = Ok o2 →
  o2 !! k = o1 !! k ∨ (k = "importScripts" ∧ truthy v = true).
Proof.
  intros Hr. destruct (decide (k = "importScripts")) as [->|Hk].
  - unfold resolve_importScripts in Hr. destruct (truthy v); [by right|].
    left. by injection Hr as <-.
  - left. by apply (resolve_importScripts_other _ _ _ _ _ _ Hr).
Qed.


(** The keys that the Config and Overrides layers of an instance can hold. *)
Lemma reachable_keys user p :
  reachable user p →
  (∀ k, is_Some (config p !! k) →
        k = "staticFileGlobs" ∨ k = "stripPrefixMulti")
  ∧ (∀ k, is_Some (overrides p !! k) →
          k = "filepath"
          ∨ (k = "importScripts"
             ∧ truthy (Obj.get (options p) "importScripts") = true)
          ∨ ((k = "staticFileGlobs" ∨ k = "stripPrefixMulti")
             ∧ truthy (Obj.get (options p) "mergeStaticsConfig") = true)).
Proof.
  induction 1 as [|c comp p p1 _ [IHc IHo] Hc].
  - split; intros k [v Hv]; cbn in Hv; by rewrite lookup_empty in Hv.
  - rewrite plugin_build, Hc.
    rewrite config_checkWarnings, overrides_checkWarnings, options_checkWarnings.
    destruct (configure_Ok _ _ _ _ Hc)
      as [fp extra globs prefixes o2 _ _ _ _ Hi Hcfg Hopt Hovr _].
    rewrite Hcfg, Hovr, Hopt. split.
    + intros k [v Hv]. rewrite lookup_spread2 in Hv.
      destruct (statics _ _ !! k) as [w|] eqn:Hs; [by eapply statics_Some|].
      apply IHc. by exists v.
    + intros k [v Hv].
      assert (is_Some (o2 !! k) →
              k = "filepath"
              ∨ (k = "importScripts"
                 ∧ truthy (Obj.get (options p) "importScripts") = true)
              ∨ ((k = "staticFileGlobs" ∨ k = "stripPrefixMulti")
                 ∧ truthy (Obj.get (options p) "mergeStaticsConfig") = true))
        as Ho2.
      { intros Hk.
        destruct (resolve_importScripts_lookup _ _ _ _ _ k Hi) as [E|E];
          [|by right; left].
        rewrite E in Hk.
        destruct (decide (k = "filepath")) as [|Hne]; [by left|].
        rewrite lookup_insert_ne in Hk by done. by apply IHo. }
      destruct (truthy (Obj.get (options p) "mergeStaticsConfig")) eqn:Hm.
      * rewrite lookup_spread2 in Hv.
        destruct (statics _ _ !! k) as [w|] eqn:Hs.
        -- right; right. split; [by eapply statics_Some|done].
        -- apply Ho2. by exists v.
      * apply Ho2. by exists v.
Qed.

(** The same, for the instance as [configure] leaves it. *)
Lemma configure_keys user c comp p p' :
  reachable user p → configure c comp p = Ok p' →
  (∀ k, is_Some (config p' !! k) →
        k = "staticFileGlobs" ∨ k = "stripPrefixMulti")
  ∧ (∀ k, is_Some (overrides p' !! k) →
          k = "filepath"
          ∨ (k = "importScripts"
             ∧ truthy (Obj.get (options p) "importScripts") = true)
          ∨ ((k = "staticFileGlobs" ∨ k = "stripPrefixMulti")
             ∧ truthy (Obj.get (options p) "mergeStaticsConfig") = true)).
Proof.
  intros Hr Hc.
  pose proof (reachable_keys user _ (reach_build user c comp p p' Hr Hc)) as Hk.
  rewrite plugin_build, Hc in Hk.
  rewrite config_checkWarnings, overrides_checkWarnings, options_checkWarnings in Hk.
  by destruct (configure_Ok _ _ _ _ Hc) as [? ? ? ? ? _ _ _ _ _ _ <- _ _].
Qed.

(** X1. An option that the plugin does not compute is handed to the
    generator as the user gave it, or with its default when the user gave
    none: apart from [filepath], [importScripts], [staticFileGlobs] and
    [stripPrefixMulti], every key of the effective configuration reads as in
    the user's options laid over the defaults. *)
Theorem other_options_pass_through user c comp p p' k :
  reachable user p →
  configure c comp p = Ok p' →
  k ≠ "filepath" → k ≠ "importScripts" →
  k ≠ "staticFileGlobs" → k ≠ "stripPrefixMulti" →
  workerOptions p' !! k =
    match user !! k with
    | Some v => Some v
    | None => DEFAULT_OPTIONS !! k
    end.
Proof.
  intros Hr Hc H1 H2 H3 H4.
  destruct (configure_keys user c comp p p' Hr Hc) as [Hkc Hko].
  assert (overrides p' !! k = None) as Ho.
  { destruct (overrides p' !! k) as [v|] eqn:E; [|done].
    destruct (Hko k (mk_is_Some _ _ E)) as [?|[[? _]|[[?|?] _]]]; done. }
  assert (config p' !! k = None) as Hcf.
  { destruct (config p' !! k) as [v|] eqn:E; [|done].
    destruct (Hkc k (mk_is_Some _ _ E)); done. }
  rewrite lookup_workerOptions, Ho, Hcf.
  destruct (configure_Ok _ _ _ _ Hc) as [? ? ? ? ? _ _ _ _ _ _ -> _ _].
  rewrite (reachable_options user p k Hr).
  by destruct (user !! k), (DEFAULT_OPTIONS !! k).
Qed.

(** X2. When the user gives no [staticFileGlobs] (or no
    [stripPrefixMulti]), the computed value is the one of the effective
    configuration, whatever [mergeStaticsConfig] is. *)
Theorem computed_statics_by_default user c comp p p' k :
  reachable user p →
  configure c comp p = Ok p' →
  k = "staticFileGlobs" ∨ k = "stripPrefixMulti" →
  user !! k = None →
  workerOptions p' !! k = config p' !! k ∧ is_Some (config p' !! k).
Proof.
  intros Hr Hc Hk Hu.
  destruct (configured_config _ _ _ _ (configure_Ok _ _ _ _ Hc))
    as (globs & prefixes & Hg & Hp & Ho).
  assert (is_Some (config p' !! k)) as Hsome.
  { destruct Hk as [-> | ->]; [by rewrite Hg|by rewrite Hp]. }
  split; [|done].
  destruct (truthy (Obj.get (options p) "mergeStaticsConfig")) eqn:Hm.
  - destruct (Ho eq_refl) as [Hog Hop].
    destruct Hk as [-> | ->].
    + by rewrite (workerOptions_overrides _ _ _ Hog), Hg.
    + by rewrite (workerOptions_overrides _ _ _ Hop), Hp.
  - destruct (configure_overrides_statics user c comp p p' Hr Hc Hm) as [Hn1 Hn2].
    apply workerOptions_config.
    + by destruct Hk as [-> | ->].
    + destruct (configure_Ok _ _ _ _ Hc) as [? ? ? ? ? _ _ _ _ _ _ -> _ _].
      rewrite (reachable_options user p k Hr), Hu.
      by destruct Hk as [-> | ->].
Qed.

End Keys.

Section History.
Context `{!Node, !Collaborators}.
Implicit Types (p q : Plugin) (c : Compiler) (comp : Compilation) (k : string).




End History.

Lemma other_options_pass_through_witness :
  ∃ p',
    @configure Sample.posix Sample.compiler Sample.compilation
      (constructor Scenario.custom) = Ok p'
    ∧ workerOptions p' !! "cacheId" = Some (VStr "my-app").
Proof.
  destruct (@configure Sample.posix Sample.compiler Sample.compilation
              (constructor Scenario.custom)) as [p'|f] eqn:E.
  - exists p'. split; [reflexivity|].
    exact (@other_options_pass_through Sample.posix Sample.healthy
             Scenario.custom Sample.compiler Sample.compilation _ p' "cacheId"
             (reach_constructor _) E
             ltac:(discriminate) ltac:(discriminate)
             ltac:(discriminate) ltac:(discriminate)).
  - vm_compute in E. discriminate.
Defined.

Lemma computed_statics_by_default_witness :
  ∃ p',
    @configure Sample.posix Sample.compiler Sample.compilation
      (constructor Scenario.custom) = Ok p'
    ∧ workerOptions p' !! "staticFileGlobs" = config p' !! "staticFileGlobs"
    ∧ is_Some (config p' !! "staticFileGlobs").
Proof.
  destruct (@configure Sample.posix Sample.compiler Sample.compilation
              (constructor Scenario.custom)) as [p'|f] eqn:E.
  - exists p'. split; [reflexivity|].
    exact (@computed_statics_by_default Sample.posix Sample.healthy
             Scenario.custom Sample.compiler Sample.compilation _ p'
             "staticFileGlobs" (reach_constructor _) E
             (or_introl eq_refl) eq_refl).
  - vm_compute in E. discriminate.
Defined.


(** ** Warnings over the life of an instance *)

Section WarningsKept.
Context `{!Node, !Collaborators}.
Implicit Types (p : Plugin) (c : Compiler) (comp : Compilation) (k : string).

Lemma checkWarnings_warnings comp p :
  warnings (fst (checkWarnings comp p))
  = (warnings p ++ raised_warnings (options p))%list.
Proof.
  unfold checkWarnings, raised_warnings.
  destruct (truthy (Obj.get (workerOptions _) "debug")); cbn [fst warnings];
    destruct (truthy (Obj.get (options p) "filepath")),
             (truthy (Obj.get (options p) "forceDelete"));
    cbn; rewrite <- ?app_assoc, ?app_nil_r; reflexivity.
Qed.

Lemma checkWarnings_host comp p :
  comp_warnings (snd (checkWarnings comp p))
  = if truthy (Obj.get (workerOptions p) "debug")
    then (comp_warnings comp ++ warnings p ++ raised_warnings (options p))%list
    else comp_warnings comp.
Proof.
  pose proof (checkWarnings_warnings comp p) as Hw.
  unfold checkWarnings in *.
  change (workerOptions {| config := config p; options := options p;
                           overrides := overrides p; warnings := ?w |})
    with (workerOptions p) in *.
  destruct (truthy (Obj.get (workerOptions p) "debug")); cbn in *; [|done].
  by rewrite Hw.
Qed.

(** X4. The instance never drops a warning: after a build its list is the
    list it had before, followed by what this build pushed (at most one
    entry for [filepath] and one for [forceDelete]); this holds with and
    without [debug]. *)
Theorem warnings_are_kept c comp p p' :
  configure c comp p = Ok p' →
  warnings (plugin (build c comp p))
  = (warnings p ++ raised_warnings (options p))%list.
Proof.
  intros Hc. rewrite plugin_build, Hc, checkWarnings_warnings.
  by destruct (configure_Ok _ _ _ _ Hc) as [? ? ? ? ? _ _ _ _ _ _ -> _ ->].
Qed.

(** X5. With [debug] on, the second build of an instance reports the
    warnings of the first build once more: the host's collection of the
    second build receives what one build pushes, twice. *)
Theorem earlier_warnings_reported_again user c1 comp1 c2 comp2 p1 p2 :
  let fresh := constructor user in
  let used := plugin (build c1 comp1 fresh) in
  configure c1 comp1 fresh = Ok p1 →
  configure c2 comp2 used = Ok p2 →
  truthy (Obj.get (workerOptions p2) "debug") = true →
  comp_warnings (compilation (build c2 comp2 used))
  = (comp_warnings comp2
     ++ raised_warnings (options fresh) ++ raised_warnings (options fresh))%list.
Proof.
  intros fresh used Hc1 Hc2 Hd.
  destruct (build_Ok c2 comp2 used p2 Hc2) as (_ & -> & _).
  rewrite checkWarnings_host, Hd.
  destruct (configure_Ok _ _ _ _ Hc2) as [? ? ? ? ? _ _ _ _ _ _ -> _ ->].
  assert (options used = options fresh) as ->.
  { unfold used. rewrite plugin_build, Hc1, options_checkWarnings.
    by destruct (configure_Ok _ _ _ _ Hc1). }
  unfold used at 1. by rewrite (warnings_are_kept _ _ _ _ Hc1).
Qed.

End WarningsKept.

(** X6. Neither the instance nor the host's warnings after a build depend
    on the generator, the minifier or the filesystem: warnings are pushed and
    reported also in a build whose generation or write fails. *)
Theorem state_independent_of_collaborators (N : Node) (K1 K2 : Collaborators)
    (c : Compiler) (comp : Compilation) (p : Plugin) :
  plugin (@build N K1 c comp p) = plugin (@build N K2 c comp p)
  ∧ compilation (@build N K1 c comp p) = compilation (@build N K2 c comp p).
Proof.
  split; [by rewrite !plugin_build|].
  destruct (configure c comp p) as [p1|f] eqn:Hc.
  - destruct (@build_Ok N K1 c comp p p1 Hc) as (_ & -> & _).
    by destruct (@build_Ok N K2 c comp p p1 Hc) as (_ & -> & _).
  - destruct (@build_Fail N K1 c comp p f Hc) as (_ & -> & _).
    by destruct (@build_Fail N K2 c comp p f Hc) as (_ & -> & _).
Qed.

Lemma warnings_are_kept_witness :
  ∃ p',
    @configure Sample.posix Sample.compiler Sample.compilation
      (constructor Sample.legacy) = Ok p'
    ∧ warnings (plugin (@build Sample.posix Scenario.rejecting Sample.compiler
                          Sample.compilation (constructor Sample.legacy)))
      = [FILEPATH_WARNING; FORCEDELETE_WARNING].
Proof.
  destruct (@configure Sample.posix Sample.compiler Sample.compilation
              (constructor Sample.legacy)) as [p'|f] eqn:E.
  - exists p'. split; [reflexivity|].
    exact (@warnings_are_kept Sample.posix Scenario.rejecting Sample.compiler
             Sample.compilation (constructor Sample.legacy) p' E).
  - vm_compute in E. discriminate.
Defined.

Lemma earlier_warnings_reported_again_witness :
  let used :=
    plugin (@build Sample.posix Sample.healthy Sample.compiler
              Sample.compilation (constructor Sample.legacy)) in
  comp_warnings
    (compilation (@build Sample.posix Sample.healthy Sample.compiler
                    Sample.compilation used))
  = [FILEPATH_WARNING; FORCEDELETE_WARNING;
     FILEPATH_WARNING; FORCEDELETE_WARNING].
Proof.
  intros used.
  destruct (@configure Sample.posix Sample.compiler Sample.compilation
              (constructor Sample.legacy)) as [p1|f] eqn:E1;
    [|vm_compute in E1; discriminate].
  destruct (@configure Sample.posix Sample.compiler Sample.compilation used)
    as [p2|f] eqn:E2; [|vm_compute in E2; discriminate].
  assert (truthy (Obj.get (workerOptions p2) "debug") = true) as Hd.
  { vm_compute in E2. injection E2 as <-. reflexivity. }
  exact (@earlier_warnings_reported_again Sample.posix Sample.healthy
           Sample.legacy Sample.compiler Sample.compilation
           Sample.compiler Sample.compilation p1 p2 E1 E2 Hd).
Defined.

(** ** The calls that a build makes *)

Section Calls.
Context `{!Node, !Collaborators}.
Implicit Types (p : Plugin) (c : Compiler) (comp : Compilation) (k : string).

Lemma path_arg_cases (v : value) :
  (∃ s, v = VStr s ∧ path_arg v = Ok s)
  ∨ ((∀ s, v ≠ VStr s) ∧ path_arg v = Fail (Throw (TypeError "path"))).
Proof. destruct v; eauto; right; by split. Qed.

(** The outcome of the minifying step when its key is a string or when
    [minify] is off. *)
Lemma minify_step_cases p contents :
  truthy (Obj.get (options p) "minify") = false
  ∨ (∃ name, Obj.get (options p) "filename" = VStr name) →
  (∃ code, snd (minify_step p contents) = Ok code)
  ∨ (∃ e, snd (minify_step p contents) = Fail (Throw e)).
Proof.
  intros Hm. unfold minify_step.
  destruct (truthy (Obj.get (options p) "minify")); [|left; by eexists].
  destruct Hm as [|[name ->]]; [done|]. cbn.
  destruct (UglifyJS_minify name contents); [right|left]; by eexists.
Qed.

(** X7. A build either writes nothing and calls the host's callback once,
    with an error, or writes one file and calls the callback twice: with
    success first, then with what [writeFile] reported for that file. *)
Theorem callback_once_or_twice c comp p p' :
  configure c comp p = Ok p' →
  truthy (Obj.get (options p) "minify") = false
  ∨ (∃ name, Obj.get (options p) "filename" = VStr name) →
  let tr := trace (build c comp p) in
  (writes tr = [] ∧ ∃ e, callbacks tr = [Some e])
  ∨ (∃ filepath content,
       writes tr = [(filepath, content)]
       ∧ callbacks tr = [None; fs_writeFile filepath content]).
Proof.
  intros Hc Hm tr. subst tr.
  rewrite (writes_build _ _ _ _ Hc), (callbacks_build _ _ _ _ Hc).
  rewrite writes_after_generate, callbacks_after_generate.
  destruct (swPrecache_generate _) as [e|contents]; [left; eauto|].
  set (p2 := fst (checkWarnings comp p')).
  assert (options p2 = options p) as Hopt.
  { unfold p2. rewrite options_checkWarnings.
    by destruct (configure_Ok _ _ _ _ Hc). }
  rewrite <- Hopt in Hm.
  destruct (minify_step_cases p2 contents Hm) as [[code ->]|[e ->]];
    [|left; eauto].
  destruct (path_arg_cases (Obj.get (workerOptions p2) "filepath"))
    as [(s & _ & ->)|[_ ->]]; [right; eauto|left; eauto].
Qed.

(** X8. In a build that writes, [mkdirp] is called on
    [path.resolve(filepath, '..')] for the path that is written, and
    [writeFile] is called when [mkdirp] has called back, whatever error
    [mkdirp] reports; nothing else follows but the callback of the write. *)
Theorem mkdirp_then_write c comp p p' filepath content :
  configure c comp p = Ok p' →
  In (filepath, content) (writes (trace (build c comp p))) →
  ∃ before,
    trace (build c comp p) =
      (before ++
       [EMkdirp (path_resolve filepath "..");
        ECallback None;
        EMkdirpDone (fs_mkdirp (path_resolve filepath ".."));
        EWriteFile filepath content;
        EWriteFileDone (fs_writeFile filepath content);
        ECallback (fs_writeFile filepath content)])%list
    ∧ writes before = [] ∧ callbacks before = [].
Proof.
  intros Hc Hin.
  rewrite (writes_build _ _ _ _ Hc), writes_after_generate in Hin.
  destruct (build_Ok c comp p p' Hc) as (_ & _ & -> & _).
  unfold after_generate.
  destruct (swPrecache_generate _) as [e|contents]; [destruct Hin|].
  destruct (minify_step_silent (fst (checkWarnings comp p')) contents)
    as [Hw Hcb].
  destruct (minify_step _ contents) as [evs [code|f]]; cbn [fst snd] in *;
    [|destruct Hin].
  destruct (path_arg _) as [fp|f]; [|destruct Hin].
  destruct Hin as [Hin|[]]. injection Hin as <- <-.
  exists ([EConfigure; EGenerate (workerOptions p'); ECheckWarnings] ++ evs)%list.
  split_and!.
  - by rewrite <- app_assoc.
  - by rewrite writes_app, Hw.
  - by rewrite callbacks_app, Hcb.
Qed.

(** X9. When the generator's promise rejects, the build is over after one
    call of the host's callback with the rejection: no minifier, no
    [mkdirp], no [writeFile]. *)
Theorem rejection_ends_build c comp p p' e :
  configure c comp p = Ok p' →
  swPrecache_generate (workerOptions p') = inl e →
  trace (build c comp p)
  = [EConfigure; EGenerate (workerOptions p'); ECheckWarnings;
     ECallback (Some e)].
Proof.
  intros Hc Hg. destruct (build_Ok c comp p p' Hc) as (_ & _ & -> & _).
  by rewrite Hg.
Qed.

(** X10. When the effective [filepath] is not a string (a user's
    [filepath: null], say), [path.resolve] throws inside the promise chain:
    the host's callback is called once, with that [TypeError], and neither
    [mkdirp] nor [writeFile] is called. *)
Theorem filepath_not_a_string c comp p p' source :
  configure c comp p = Ok p' →
  swPrecache_generate (workerOptions p') = inr source →
  truthy (Obj.get (options p) "minify") = false →
  (∀ s, Obj.get (workerOptions p') "filepath" ≠ VStr s) →
  trace (build c comp p)
  = [EConfigure; EGenerate (workerOptions p'); ECheckWarnings;
     ECallback (Some (TypeError "path"))].
Proof.
  intros Hc Hg Hm Hfp.
  destruct (build_Ok c comp p p' Hc) as (_ & _ & -> & _).
  rewrite Hg. unfold after_generate.
  rewrite minify_step_off.
  2:{ rewrite options_checkWarnings.
      by destruct (configure_Ok _ _ _ _ Hc) as [? ? ? ? ? _ _ _ _ _ _ -> _ _]. }
  rewrite workerOptions_checkWarnings.
  by destruct (path_arg_cases (Obj.get (workerOptions p') "filepath"))
    as [(s & E & _)|[_ ->]]; [destruct (Hfp s E)|].
Qed.

End Calls.

Lemma callback_once_or_twice_witness :
  let tr := trace (@build Sample.posix Sample.read_only_disk Sample.compiler
                     Sample.compilation (constructor ∅)) in
  (writes tr = [] ∧ ∃ e, callbacks tr = [Some e])
  ∨ (∃ filepath content,
       writes tr = [(filepath, content)]
       ∧ callbacks tr
         = [None; @fs_writeFile Sample.read_only_disk filepath content]).
Proof.
  destruct (@configure Sample.posix Sample.compiler Sample.compilation
              (constructor ∅)) as [p'|f] eqn:E.
  - exact (@callback_once_or_twice Sample.posix Sample.read_only_disk
             Sample.compiler Sample.compilation (constructor ∅) p' E
             (or_introl eq_refl)).
  - vm_compute in E. discriminate.
Defined.

Lemma mkdirp_then_write_witness :
  ∃ before,
    trace (@build Sample.posix Sample.read_only_disk Sample.compiler
             Sample.compilation (constructor ∅)) =
      (before ++
       [EMkdirp "/dist";
        ECallback None;
        EMkdirpDone (Some (Error "EROFS"));
        EWriteFile "/dist/service-worker.js"
          "self.addEventListener('install', f);";
        EWriteFileDone (Some (Error "EROFS"));
        ECallback (Some (Error "EROFS"))])%list
    ∧ writes before = [] ∧ callbacks before = [].
Proof.
  destruct (@configure Sample.posix Sample.compiler Sample.compilation
              (constructor ∅)) as [p'|f] eqn:E.
  - apply (@mkdirp_then_write Sample.posix Sample.read_only_disk
             Sample.compiler Sample.compilation (constructor ∅) p'
             "/dist/service-worker.js" "self.addEventListener('install', f);" E).
    vm_compute. left. reflexivity.
  - vm_compute in E. discriminate.
Defined.

Lemma rejection_ends_build_witness :
  ∃ p',
    @configure Sample.posix Sample.compiler Sample.compilation
      (constructor Sample.ignoring) = Ok p'
    ∧ trace (@build Sample.posix Scenario.rejecting Sample.compiler
               Sample.compilation (constructor Sample.ignoring))
      = [EConfigure; EGenerate (workerOptions p'); ECheckWarnings;
         ECallback (Some (Error "no such directory"))].
Proof.
  destruct (@configure Sample.posix Sample.compiler Sample.compilation
              (constructor Sample.ignoring)) as [p'|f] eqn:E.
  - exists p'. split; [reflexivity|].
    exact (@rejection_ends_build Sample.posix Scenario.rejecting
             Sample.compiler Sample.compilation _ p' _ E eq_refl).
  - vm_compute in E. discriminate.
Defined.

Lemma filepath_not_a_string_witness :
  ∃ p',
    @configure Sample.posix Sample.compiler Sample.compilation
      (constructor Scenario.null_filepath) = Ok p'
    ∧ trace (@build Sample.posix Sample.healthy Sample.compiler
               Sample.compilation (constructor Scenario.null_filepath))
      = [EConfigure; EGenerate (workerOptions p'); ECheckWarnings;
         ECallback (Some (TypeError "path"))].
Proof.
  destruct (@configure Sample.posix Sample.compiler Sample.compilation
              (constructor Scenario.null_filepath)) as [p'|f] eqn:E.
  - exists p'. split; [reflexivity|].
    apply (@filepath_not_a_string Sample.posix Sample.healthy
             Sample.compiler Sample.compilation _ p'
             "self.addEventListener('install', f);" E eq_refl eq_refl).
    intros s Hs. vm_compute in E. injection E as <-. vm_compute in Hs.
    discriminate.
  - vm_compute in E. discriminate.
Defined.

(** ** Options of other types *)

Section Untyped.
Context `{!Node, !Collaborators}.
Implicit Types (p : Plugin) (c : Compiler) (comp : Compilation) (k : string).

Lemma resolve_filepath_named c p name :
  Obj.get (options p) "filename" = VStr name →
  ∃ fp, resolve_filepath c p = Ok fp.
Proof.
  intros Hn. unfold resolve_filepath. rewrite Hn.
  destruct (Obj.get (options p) "filepath"); cbn; eauto.
Qed.

Lemma concat_arg_typed (v : value) :
  v = VUndef ∨ (∃ l, v = VStrs l) → ∃ extra, concat_arg v = Ok extra.
Proof. intros [->|[l ->]]; cbn; eauto. Qed.

(** The filter throws at its first text when the patterns are no array of
    regular expressions. *)
Lemma filter_globs_throws patterns text rest :
  (∀ l, patterns ≠ VRegs l) → patterns ≠ VStrs [] →
  filter_globs patterns (text :: rest)
  = Fail (Throw (TypeError "staticFileGlobsIgnorePatterns")).
Proof.
  intros H1 H2. unfold filter_globs. cbn.
  destruct patterns as [| | | |[|]|l|]; try done. by destruct (H1 l).
Qed.

(** X11. Without a [filepath], a [filename] that is not a string (the
    user's [filename: undefined] replaces the default) makes [path.resolve]
    throw in [configure]: the exception leaves the handler, the generator is
    not called and the host's callback is never called. *)
Theorem filename_not_a_string c comp p :
  Obj.get (options p) "filepath" = VUndef →
  (∀ s, Obj.get (options p) "filename" ≠ VStr s) →
  configure c comp p = Fail (Throw (TypeError "path"))
  ∧ trace (build c comp p) = [EConfigure]
  ∧ halted (build c comp p) = Some (Throw (TypeError "path")).
Proof.
  intros Hfp Hfn.
  assert (configure c comp p = Fail (Throw (TypeError "path"))) as Hc.
  { unfold configure, resolve_filepath. rewrite Hfp.
    destruct (path_arg_cases (Obj.get (options p) "filename"))
      as [(s & E & _)|[_ ->]]; [destruct (Hfn s E)|done]. }
  split; [done|].
  by destruct (build_Fail c comp p _ Hc) as (_ & _ & -> & -> & _).
Qed.

(** X12. Ignore patterns that are no array of regular expressions (the
    user's [staticFileGlobsIgnorePatterns: undefined] replaces the default)
    make [configure] throw as soon as there is one asset to filter. *)
Theorem ignore_patterns_not_an_array c comp p name :
  Obj.get (options p) "filename" = VStr name →
  Obj.get (options p) "staticFileGlobs" = VUndef
  ∨ (∃ l, Obj.get (options p) "staticFileGlobs" = VStrs l) →
  assets comp ≠ [] →
  (∀ l, Obj.get (options p) "staticFileGlobsIgnorePatterns" ≠ VRegs l) →
  Obj.get (options p) "staticFileGlobsIgnorePatterns" ≠ VStrs [] →
  configure c comp p
  = Fail (Throw (TypeError "staticFileGlobsIgnorePatterns")).
Proof.
  intros Hn Hg Ha H1 H2. unfold configure.
  destruct (resolve_filepath_named c p name Hn) as [fp ->].
  destruct (concat_arg_typed _ Hg) as [extra ->]. cbn.
  destruct (assets comp) as [|a rest]; [done|]. cbn [map app].
  by rewrite filter_globs_throws.
Qed.

(** X13. A truthy [importScripts] that is no array (a single string, say)
    makes [configure] throw a [TypeError], after the globs and the prefix
    map have been computed. *)
Theorem import_scripts_not_an_array c comp p name regs :
  Obj.get (options p) "filename" = VStr name →
  Obj.get (options p) "staticFileGlobs" = VUndef
  ∨ (∃ l, Obj.get (options p) "staticFileGlobs" = VStrs l) →
  Obj.get (options p) "staticFileGlobsIgnorePatterns" = VRegs regs →
  Obj.get (options p) "stripPrefixMulti" = VUndef
  ∨ (∃ m, Obj.get (options p) "stripPrefixMulti" = VDict m) →
  truthy (Obj.get (options p) "importScripts") = true →
  (∀ l, Obj.get (options p) "importScripts" ≠ VStrs l) →
  Obj.get (options p) "importScripts" ≠ VRegs [] →
  configure c comp p = Fail (Throw (TypeError "importScripts")).
Proof.
  intros Hn Hg Hp Hm Ht H1 H2. unfold configure.
  destruct (resolve_filepath_named c p name Hn) as [fp ->].
  destruct (concat_arg_typed _ Hg) as [extra ->]. cbn.
  rewrite Hp, filter_globs_regs. cbn.
  assert (∃ m, spread_dict (Obj.get (options p) "stripPrefixMulti") = Ok m)
    as [m ->].
  { destruct Hm as [->|[m ->]]; cbn; eauto. }
  cbn. unfold resolve_importScripts. rewrite Ht.
  destruct (Obj.get (options p) "importScripts") as [| | | |l|[|]|];
    try done. by destruct (H1 l).
Qed.

(** X14. A falsy [importScripts] (the user's [null] or [false]) is not
    resolved: the Overrides layer gets no [importScripts], and the generator
    receives the option as the user gave it. *)
Theorem falsy_import_scripts_pass_through user c comp p p' :
  reachable user p →
  configure c comp p = Ok p' →
  truthy (Obj.get (options p) "importScripts") = false →
  overrides p' !! "importScripts" = None
  ∧ workerOptions p' !! "importScripts" = user !! "importScripts".
Proof.
  intros Hr Hc Ht.
  destruct (configure_keys user c comp p p' Hr Hc) as [Hkc Hko].
  assert (overrides p' !! "importScripts" = None) as Ho.
  { destruct (overrides p' !! "importScripts") as [v|] eqn:E; [|done].
    destruct (Hko _ (mk_is_Some _ _ E)) as [?|[[_ Ht']|[[?|?] _]]]; try done.
    by rewrite Ht in Ht'. }
  assert (config p' !! "importScripts" = None) as Hcf.
  { destruct (config p' !! "importScripts") as [v|] eqn:E; [|done].
    by destruct (Hkc _ (mk_is_Some _ _ E)). }
  split; [done|].
  rewrite lookup_workerOptions, Ho, Hcf.
  destruct (configure_Ok _ _ _ _ Hc) as [? ? ? ? ? _ _ _ _ _ _ -> _ _].
  unfold Obj.get in Ht.
  rewrite (reachable_options user p _ Hr) in Ht |- *.
  destruct (user !! "importScripts") as [v|]; [done|].
  by vm_compute in Ht.
Qed.

End Untyped.

Lemma filename_not_a_string_witness :
  @configure Sample.posix Sample.compiler Sample.compilation
    (constructor Scenario.undefined_filename)
  = Fail (Throw (TypeError "path"))
  ∧ trace (@build Sample.posix Sample.healthy Sample.compiler
             Sample.compilation (constructor Scenario.undefined_filename))
    = [EConfigure]
  ∧ halted (@build Sample.posix Sample.healthy Sample.compiler
              Sample.compilation (constructor Scenario.undefined_filename))
    = Some (Throw (TypeError "path")).
Proof.
  apply (@filename_not_a_string Sample.posix Sample.healthy Sample.compiler
           Sample.compilation (constructor Scenario.undefined_filename)).
  - reflexivity.
  - intros s Hs. vm_compute in Hs. discriminate.
Defined.

Lemma ignore_patterns_not_an_array_witness :
  @configure Sample.posix Sample.compiler Sample.compilation
    (constructor Scenario.undefined_patterns)
  = Fail (Throw (TypeError "staticFileGlobsIgnorePatterns")).
Proof.
  apply (@ignore_patterns_not_an_array Sample.posix Sample.compiler
           Sample.compilation (constructor Scenario.undefined_patterns)
           "service-worker.js").
  - reflexivity.
  - left. reflexivity.
  - discriminate.
  - intros l Hl. vm_compute in Hl. discriminate.
  - intros Hl. vm_compute in Hl. discriminate.
Defined.

Lemma import_scripts_not_an_array_witness :
  @configure Sample.posix Sample.compiler Sample.compilation
    (constructor Scenario.string_scripts)
  = Fail (Throw (TypeError "importScripts")).
Proof.
  apply (@import_scripts_not_an_array Sample.posix Sample.compiler
           Sample.compilation (constructor Scenario.string_scripts)
           "service-worker.js" []).
  - reflexivity.
  - left. reflexivity.
  - reflexivity.
  - left. reflexivity.
  - reflexivity.
  - intros l Hl. vm_compute in Hl. discriminate.
  - intros Hl. vm_compute in Hl. discriminate.
Defined.

Lemma falsy_import_scripts_pass_through_witness :
  ∃ p',
    @configure Sample.posix Sample.compiler Sample.compilation
      (constructor Scenario.no_scripts) = Ok p'
    ∧ overrides p' !! "importScripts" = None
    ∧ workerOptions p' !! "importScripts" = Some VNull.
Proof.
  destruct (@configure Sample.posix Sample.compiler Sample.compilation
              (constructor Scenario.no_scripts)) as [p'|f] eqn:E.
  - exists p'. split; [reflexivity|].
    exact (@falsy_import_scripts_pass_through Sample.posix Sample.healthy
             Scenario.no_scripts Sample.compiler Sample.compilation _ p'
             (reach_constructor _) E eq_refl).
  - vm_compute in E. discriminate.
Defined.

(** ** The computed values in detail *)

Section Details.
Context `{!Node, !Collaborators}.
Implicit Types (p : Plugin) (c : Compiler) (comp : Compilation) (k : string).

(** X15. The computed prefix map keeps every entry of the user's
    [stripPrefixMulti] except the one for the output directory followed by
    the separator; with an empty output path it is the user's map,
    unchanged. *)
Theorem user_prefixes_are_kept c comp p p' user_prefixes :
  configure c comp p = Ok p' →
  Obj.get (options p) "stripPrefixMulti" = VDict user_prefixes →
  ∃ m,
    config p' !! "stripPrefixMulti" = Some (VDict m)
    ∧ (∀ k, k ≠ outputPath c +:+ path_sep → m !! k = user_prefixes !! k)
    ∧ (outputPath c = "" → m = user_prefixes).
Proof.
  intros Hc Hu.
  destruct (configure_Ok _ _ _ _ Hc)
    as [fp extra globs prefixes o2 _ _ _ Hm _ Hcfg _ _ _].
  rewrite Hu in Hm. cbn in Hm. injection Hm as <-.
  exists (strip_output_path c user_prefixes). split_and!.
  - by rewrite Hcfg, lookup_spread2, statics_prefixes.
  - intros k Hk. unfold strip_output_path.
    destruct (truthy (VStr (outputPath c))); [|done].
    by rewrite lookup_insert_ne.
  - intros Hout. unfold strip_output_path. by rewrite Hout.
Qed.

(** X16. Whatever the hash, an import script that does not hold the
    placeholder is only resolved against the public path; the resolved list
    has the length and the order of the configured one. *)
Theorem scripts_without_placeholder c comp p p' scripts :
  configure c comp p = Ok p' →
  Obj.get (options p) "importScripts" = VStrs scripts →
  ∃ resolved,
    overrides p' !! "importScripts" = Some (VStrs resolved)
    ∧ length resolved = length scripts
    ∧ ∀ i f,
        scripts !! i = Some f →
        Replace.contains Replace.token f = false →
        resolved !! i
        = Some (url_resolve (default DEFAULT_PUBLIC_PATH (publicPath c)) f).
Proof.
  intros Hc Hs.
  destruct (configure_Ok _ _ _ _ Hc)
    as [fp extra globs prefixes o2 _ _ _ _ Hi _ _ Hovr _].
  rewrite Hs in Hi. apply resolve_importScripts_scripts in Hi.
  eexists. split_and!.
  - rewrite Hovr.
    destruct (truthy (Obj.get (options p) "mergeStaticsConfig")); [|exact Hi].
    rewrite lookup_spread2, statics_other by done. exact Hi.
  - by rewrite length_map.
  - intros i f Hf Hno. rewrite list_lookup_fmap, Hf. cbn.
    unfold Replace.replace_hash. by rewrite replace_from_absent.
Qed.

(** X17. With [mergeStaticsConfig] on, the effective configuration merges
    the user's statics with the computed ones: its glob list holds every
    joined asset name and every glob of the user that no ignore pattern
    matches, and its prefix map holds every entry of the user except one for
    the output directory itself. *)
Theorem merged_statics c comp p p' user_globs user_prefixes :
  configure c comp p = Ok p' →
  truthy (Obj.get (options p) "mergeStaticsConfig") = true →
  Obj.get (options p) "staticFileGlobs" = VStrs user_globs →
  Obj.get (options p) "stripPrefixMulti" = VDict user_prefixes →
  ∃ globs m,
    workerOptions p' !! "staticFileGlobs" = Some (VStrs globs)
    ∧ workerOptions p' !! "stripPrefixMulti" = Some (VDict m)
    ∧ (∀ text,
         In text (map (λ f, path_join (outputPath c) f) (assets comp))
         ∨ In text user_globs →
         ignored (Obj.get (options p) "staticFileGlobsIgnorePatterns") text
         = false →
         In text globs)
    ∧ (∀ k v, user_prefixes !! k = Some v →
              k ≠ outputPath c +:+ path_sep → m !! k = Some v).
Proof.
  intros Hc Hmerge Hg Hp.
  destruct (configure_Ok _ _ _ _ Hc)
    as [fp extra globs prefixes o2 _ He Hf Hm _ _ _ Hovr _].
  rewrite Hg in He. cbn in He. injection He as <-.
  rewrite Hp in Hm. cbn in Hm. injection Hm as <-.
  apply filter_globs_Ok in Hf.
  exists globs, (strip_output_path c user_prefixes).
  rewrite Hmerge in Hovr. split_and!.
  - apply workerOptions_overrides.
    by rewrite Hovr, lookup_spread2, statics_globs.
  - apply workerOptions_overrides.
    by rewrite Hovr, lookup_spread2, statics_prefixes.
  - intros text Hin Hno. rewrite Hf. apply filter_In. split.
    + apply in_or_app. tauto.
    + by rewrite Hno.
  - intros k v Hk Hne. unfold strip_output_path.
    destruct (truthy (VStr (outputPath c))); [|done].
    by rewrite lookup_insert_ne.
Qed.

End Details.

Lemma user_prefixes_are_kept_witness :
  ∃ p' m,
    @configure Sample.posix Scenario.bare Sample.compilation
      (constructor Scenario.custom) = Ok p'
    ∧ config p' !! "stripPrefixMulti" = Some (VDict m)
    ∧ m = <["/srv/" := "/"]> ∅.
Proof.
  destruct (@configure Sample.posix Scenario.bare Sample.compilation
              (constructor Scenario.custom)) as [p'|f] eqn:E.
  - destruct (@user_prefixes_are_kept Sample.posix Scenario.bare
                Sample.compilation _ p' (<["/srv/" := "/"]> ∅) E eq_refl)
      as (m & Hm & _ & Hbare).
    exists p', m. split_and!; [reflexivity|exact Hm|exact (Hbare eq_refl)].
  - vm_compute in E. discriminate.
Defined.

Lemma scripts_without_placeholder_witness :
  ∃ p' resolved,
    @configure Sample.posix Sample.compiler Sample.compilation
      (constructor Scenario.two_scripts) = Ok p'
    ∧ overrides p' !! "importScripts" = Some (VStrs resolved)
    ∧ length resolved = 2
    ∧ resolved !! 0 = Some "/assets/a.js".
Proof.
  destruct (@configure Sample.posix Sample.compiler Sample.compilation
              (constructor Scenario.two_scripts)) as [p'|f] eqn:E.
  - destruct (@scripts_without_placeholder Sample.posix Sample.compiler
                Sample.compilation _ p' ["a.js"; "b-[hash].js"] E eq_refl)
      as (resolved & Ho & Hlen & Hall).
    exists p', resolved.
    split_and!; [reflexivity|exact Ho|exact Hlen|].
    exact (Hall 0 "a.js" eq_refl eq_refl).
  - vm_compute in E. discriminate.
Defined.

Lemma merged_statics_witness :
  ∃ p' globs m,
    @configure Sample.posix Sample.compiler Sample.compilation
      (constructor Sample.merging) = Ok p'
    ∧ workerOptions p' !! "staticFileGlobs" = Some (VStrs globs)
    ∧ workerOptions p' !! "stripPrefixMulti" = Some (VDict m)
    ∧ In "/static/x.png" globs
    ∧ In "/dist/a.js" globs.
Proof.
  destruct (@configure Sample.posix Sample.compiler Sample.compilation
              (constructor Sample.merging)) as [p'|f] eqn:E.
  - destruct (@merged_statics Sample.posix Sample.compiler Sample.compilation
                _ p' ["/static/x.png"] (<["/dist/" := "/other/"]> ∅)
                E eq_refl eq_refl eq_refl)
      as (globs & m & Hg & Hm & Hin & _).
    exists p', globs, m.
    split_and!; [reflexivity|exact Hg|exact Hm| |].
    + apply Hin; [right; by left|reflexivity].
    + apply Hin; [left; by left|reflexivity].
  - vm_compute in E. discriminate.
Defined.

Section Liveness.
Context `{!Node, !Collaborators}.
Implicit Types (p : Plugin) (c : Compiler) (comp : Compilation) (k : string).

(** A build whose minifier key is a string calls the host's callback. *)
Lemma build_calls_back c comp p p' :
  configure c comp p = Ok p' →
  truthy (Obj.get (options p) "minify") = false
  ∨ (∃ name, Obj.get (options p) "filename" = VStr name) →
  callbacks (trace (build c comp p)) ≠ [].
Proof.
  intros Hc Hm.
  rewrite (callbacks_build _ _ _ _ Hc), callbacks_after_generate.
  destruct (swPrecache_generate _) as [e|contents]; [done|].
  set (p2 := fst (checkWarnings comp p')).
  assert (options p2 = options p) as Hopt.
  { unfold p2. rewrite options_checkWarnings.
    by destruct (configure_Ok _ _ _ _ Hc). }
  rewrite <- Hopt in Hm.
  destruct (minify_step_cases p2 contents Hm) as [[code ->]|[e ->]]; [|done].
  by destruct (path_arg_cases (Obj.get (workerOptions p2) "filepath"))
    as [(s & _ & ->)|[_ ->]].
Qed.

(** X18. On options of the documented types [configure] does not throw,
    and the build calls the host's callback at least once, whatever the
    generator, the minifier and the filesystem do. *)
Theorem typed_options_call_back c comp p :
  typed_options (options p) →
  truthy (Obj.get (options p) "minify") = false
  ∨ (∃ name, Obj.get (options p) "filename" = VStr name) →
  ∃ p', configure c comp p = Ok p'
        ∧ callbacks (trace (build c comp p)) ≠ [].
Proof.
  intros Ht Hm. destruct (configure_typed c comp p Ht) as [p' Hc].
  exists p'. split; [done|]. by apply (build_calls_back c comp p p').
Qed.

End Liveness.

Lemma typed_options_call_back_witness :
  ∃ p',
    @configure Sample.posix Scenario.bare Sample.compilation
      (constructor Sample.ignoring) = Ok p'
    ∧ callbacks (trace (@build Sample.posix Scenario.rejecting Scenario.bare
                          Sample.compilation (constructor Sample.ignoring)))
      ≠ [].
Proof.
  apply (@typed_options_call_back Sample.posix Scenario.rejecting
           Scenario.bare Sample.compilation (constructor Sample.ignoring)).
  - split_and!.
    + right. by exists "service-worker.js".
    + by exists [Sample.css].
    + right. by exists ["/static/x.png"].
    + by left.
    + right. by exists [].
  - right. by exists "service-worker.js".
Defined.
